(** * Settlement and balance engine of the bet-tracking REST API

    A shallow embedding of [src/utils/betCalculations.js] (the settlement
    calculator) and of the handlers that call it or aggregate its outputs:
    [createBet], [updateBet], [deleteBet] and [getBetStats] of the bets
    controller, [createBookMaker], [updateBookMaker], [deleteBookMaker],
    [getBookMakerBalance] and [getBookMakerPerformance] of the bookmakers
    controller, [createTransaction] and [getBalanceByPeriod] of the
    transactions controller, [createFreebet], [updateFreebet] and
    [getFreebetConversionRate] of the freebets controller.

    - JavaScript numbers are IEEE-754 binary64 values, so they are Rocq's
      primitive [float]: [*], [-], [/] and [+] below are the operations the
      engine evaluates, rounding included.  A decimal literal such as [0.13]
      denotes the nearest binary64 value, as it does in JavaScript.
    - Request fields and SQL aggregates keep [undefined] and [null] apart
      from numbers and strings.  The stake and the odds of a bet and the
      amount of a transaction, which their handlers test for truthiness
      only, may also hold a string or a boolean; a field the handler checks
      with [typeof] or against a list of strings is a number, or a string,
      when present.
    - An evaluation that can throw is a [completion]; the [try]/[catch] of a
      handler turns a [Throw] into its 500 response.
    - The persistence layer is a database of rows; a handler is a function
      from the database and the request to the response and the database it
      leaves.  Failures of the connection and the constraints the schema
      declares are not part of the embedding: what is stated of a write is
      stated of a statement the database accepts.  A statement the engine
      refuses because of the columns it names is modelled where there is
      one ([getBalanceByPeriod]). *)

From Stdlib Require Import ZArith QArith Qabs Qround String List Lia Bool.
From Stdlib Require Import Floats.
Import ListNotations.

Set Warnings "-inexact-float".

Local Open Scope string_scope.
Local Open Scope float_scope.

(** ** Completions: a JavaScript evaluation returns or throws *)

Inductive error : Type :=
| TypeError (what : string)
| ReferenceError (identifier : string).

Inductive completion (A : Type) : Type :=
| Normal (a : A)
| Throw (e : error).

Arguments Normal {A} a.
Arguments Throw {A} e.

Definition bind {A B : Type} (c : completion A) (k : A -> completion B)
  : completion B :=
  match c with
  | Normal a => k a
  | Throw e => Throw e
  end.

Notation "x <- c ;; k" := (bind c (fun x => k))
  (at level 61, c at next level, right associativity).

(** ** Numbers, [undefined] and [null] *)

Module JS.

(** A slot the code treats as a number: a request field that may be absent
    ([Undefined]), an SQL aggregate that may be [NULL] ([Null]), or a
    binary64 number. *)
Inductive numeric : Type :=
| Undefined
| Null
| Num (x : float).

(** What a parameter or a field of a request body holds, neither of which
    the code type-checks: a [numeric], or another primitive value that JSON
    or a form carries, a string or a boolean.  Of such a value the code
    observes its truthiness and the number arithmetic converts it to, so it
    is kept by these two: the string ['100'] is [Other true 100], the string
    ['0'] is [Other true 0], the empty string [Other false 0], [true] is
    [Other true 1].  Arrays and objects are not part of the embedding. *)
Inductive value : Type :=
| Of (v : numeric)
| Other (truthy : bool) (number : float).

Coercion Of : numeric >-> value.

(** ECMAScript [ToNumber]. *)
Definition ToNumber (v : value) : float :=
  match v with
  | Of Undefined => nan
  | Of Null => 0
  | Of (Num x) => x
  | Other _ number => number
  end.

(** ECMAScript [ToBoolean] on a number: [+0], [-0] and [NaN] are falsy. *)
Definition truthy_number (x : float) : bool :=
  negb (is_nan x || is_zero x).

Definition truthy (v : value) : bool :=
  match v with
  | Of (Num x) => truthy_number x
  | Of _ => false
  | Other truthy _ => truthy
  end.

(** [a || b] where [b] is a number. *)
Definition or_else (a : numeric) (b : float) : float :=
  match a with
  | Num x => if truthy_number x then x else b
  | _ => b
  end.

(** A string field of a request: [None] is [undefined]. *)
Definition strict_eq (v : option string) (literal : string) : bool :=
  match v with
  | Some s => String.eqb s literal
  | None => false
  end.

Definition truthy_string (v : option string) : bool :=
  match v with
  | Some s => negb (String.eqb s "")
  | None => false
  end.

(** *** [Number.prototype.toFixed(2)]

    The string it returns is kept by its shape. *)
Inductive numeric_string : Type :=
| StrNaN                              (* "NaN" *)
| StrInfinity (negative : bool)       (* "Infinity", "-Infinity" *)
| StrDecimal (negative : bool) (hundredths : Z)
    (* an optional "-", then hundredths/100 written with two decimals *)
| StrToString (x : float).
    (* magnitude of 1e21 and more: the digits of Number::toString *)

(** The integer [n] for which [n / 100 - m * 2^e] is as close to zero as
    possible, the larger one when there are two. *)
Definition hundredths (m : positive) (e : Z) : Z :=
  match e with
  | Zneg p => (200 * Z.pos m + 2 ^ Z.pos p) / 2 ^ (Z.pos p + 1)
  | _ => 100 * Z.pos m * 2 ^ e
  end%Z.

Definition toFixed2 (x : float) : numeric_string :=
  match Prim2SF x with
  | S754_nan => StrNaN
  | S754_infinity s => StrInfinity s
  | S754_zero _ => StrDecimal false 0
  | S754_finite s m e =>
      if 1e21 <=? abs x then StrToString x
      else StrDecimal s (hundredths m e)
  end.

(** [Number(s)] on such a string: the binary64 value nearest to the decimal
    it spells. *)
Definition Number (s : numeric_string) : float :=
  match s with
  | StrNaN => nan
  | StrInfinity negative => if negative then neg_infinity else infinity
  | StrDecimal negative (Zpos n) =>
      SF2Prim (SFdiv prec emax (S754_finite negative n 0)
                               (S754_finite false 100 0))
  | StrDecimal negative _ => if negative then neg_zero else zero
  | StrToString x => x
  end.

(** Every string [toFixed] returns is non-empty, hence truthy. *)
Definition truthy_numeric_string (s : numeric_string) : bool := true.

(** [v.toFixed(2)]: reading a property of [undefined] or [null] throws, and
    so does calling a method that only numbers have. *)
Definition toFixed (v : value) : completion numeric_string :=
  match v with
  | Of (Num x) => Normal (toFixed2 x)
  | Of Undefined => Throw (TypeError "Cannot read properties of undefined (reading 'toFixed')")
  | Of Null => Throw (TypeError "Cannot read properties of null (reading 'toFixed')")
  | Other _ _ => Throw (TypeError "toFixed is not a function")
  end.

(** The idiom [Number(x.toFixed(2))] on a number. *)
Definition round2 (x : float) : float := Number (toFixed2 x).

End JS.

Import JS.

(** ** src/utils/betCalculations.js *)

(** The arm a [switch ( betType )] of the calculator selects. *)
Inductive betType_case : Type :=
| case_backBet
| case_layBet
| case_freeBet
| case_default.

Definition switch_betType (betType : option string) : betType_case :=
  if strict_eq betType "backBet" then case_backBet
  else if strict_eq betType "layBet" then case_layBet
  else if strict_eq betType "freeBet" then case_freeBet
  else case_default.

Definition calculateLiability (status betType : option string)
    (stake odds : value) : completion float :=
  if negb (strict_eq status "pending") then Normal 0
  else
    match switch_betType betType with
    | case_layBet => Normal (round2 (ToNumber stake * (ToNumber odds - 1)))
    | case_freeBet => Normal 0
    | _ => s <- toFixed stake ;; Normal (Number s)
    end.

Definition calculateCommission (profit commission : value) : float :=
  round2 (ToNumber profit * (ToNumber commission / 100)).

(** The default value of a parameter replaces [undefined] only. *)
Definition default_parameter (v : value) (d : float) : value :=
  match v with
  | Of Undefined => Num d
  | _ => v
  end.

Definition calculateResult (status betType : option string)
    (stake odds liability commission : value) : completion float :=
  let commission := default_parameter commission 0 in
  if strict_eq status "pending" then Normal 0
  else
    match switch_betType betType with
    | case_backBet =>
        if strict_eq status "won" then
          let profit := ToNumber stake * (ToNumber odds - 1) in
          let commissionAmount := calculateCommission (Num profit) commission in
          Normal (round2 (profit - commissionAmount))
        else s <- toFixed stake ;; Normal (- Number s)
    | case_layBet =>
        if strict_eq status "won" then
          let profit := stake in
          let commissionAmount := calculateCommission profit commission in
          Normal (round2 (ToNumber profit - commissionAmount))
        else s <- toFixed liability ;; Normal (- Number s)
    | case_freeBet =>
        if strict_eq status "won" then
          let profit := ToNumber stake * (ToNumber odds - 1) in
          let commissionAmount := calculateCommission (Num profit) commission in
          Normal (round2 (profit - commissionAmount))
        else Normal 0
    | case_default =>
        if strict_eq status "won" then
          let profit := ToNumber stake * (ToNumber odds - 1) in
          let commissionAmount := calculateCommission (Num profit) commission in
          Normal (round2 (profit - commissionAmount))
        else s <- toFixed stake ;; Normal (- Number s)
    end.

(** ** Persisted records

    The persistence layer hands every numeric column back as a JavaScript
    number.  A calendar day (a [DATE] column, 'YYYY-MM-DD' in a request) is
    kept by its ordinal. *)

Definition date := Z.
Bind Scope Z_scope with date.

(** An integer as the number JavaScript holds for it. *)
Definition number_of_Z (z : Z) : float :=
  SF2Prim (binary_normalize prec emax z 0 false).

Module BookMaker.
Record t : Type := {
  id : Z;
  name : string;
  type : string;
  comission : float;
  initialBalance : float;
  info : option string
}.

(** [row.key] where the code expects a number: the numeric columns of a
    row of [SELECT * FROM bookMakers]; a key the row lacks reads
    [undefined]. *)
Definition number_property (row : t) (key : string) : numeric :=
  if String.eqb key "id" then Num (number_of_Z (id row))
  else if String.eqb key "comission" then Num (comission row)
  else if String.eqb key "initialBalance" then Num (initialBalance row)
  else Undefined.
End BookMaker.

Module Bet.
Record t : Type := {
  id : Z;
  betDate : date;
  idBookMaker : Z;
  bank : string;
  betType : string;
  eventDate : date;
  event : string;
  bet : string;
  stake : float;
  odds : float;
  status : string;
  liability : float;
  result : float;
  info : option string
}.
End Bet.

Module Transaction.
Record t : Type := {
  id : Z;
  date : date;
  idBookMaker : Z;
  type : string;
  amount : float;
  info : option string
}.
End Transaction.

Record database : Type := {
  bookMakers : list BookMaker.t;
  bets : list Bet.t;
  transactions : list Transaction.t
}.

(** [SELECT * FROM bookMakers WHERE id = ?] through [dbGet]: the first row,
    or [undefined]. *)
Definition select_bookMaker (db : database) (id : Z) : option BookMaker.t :=
  find (fun bm => Z.eqb (BookMaker.id bm) id) (bookMakers db).

(** [SELECT * FROM bets WHERE id = ?] through [dbGet]. *)
Definition select_bet (db : database) (id : Z) : option Bet.t :=
  find (fun b => Z.eqb (Bet.id b) id) (bets db).

(** SQL [SUM]: [NULL] over no row, else the terms added in row order. *)
Definition sql_sum (terms : list float) : numeric :=
  match terms with
  | [] => Null
  | x :: rest => Num (fold_left add rest x)
  end.

(** [date BETWEEN ? AND ?] *)
Definition between (d startDate endDate : date) : bool :=
  Z.leb startDate d && Z.leb d endDate.

(** What a handler sends back. *)
Inductive response (A : Type) : Type :=
| Json (code : Z) (body : A)                (* res.status(code).json(body) *)
| Message (code : Z) (message : string)     (* res.status(code).json({ message }) *)
| Empty (code : Z).                         (* res.status(code).send() *)

Arguments Json {A} code body.
Arguments Message {A} code message.
Arguments Empty {A} code.
(** ** The bets controller: [createBet] and [updateBet] *)

(** The body of a request, field by field; an absent field is [undefined]. *)
Module BetBody.
Record t : Type := {
  idBookMaker : option Z;
  bank : option string;
  betType : option string;
  betDate : option date;
  eventDate : option date;
  event : option string;
  bet : option string;
  stake : value;
  odds : value;
  status : option string;
  info : option string
}.
End BetBody.

Definition validTypes : list string :=
  ["backBet"; "layBet"; "mugBet"; "freeBet"; "personal"; "other"].

Definition validStatus : list string := ["pending"; "won"; "lost"].

Definition validBanks : list string := ["real"; "freebet"].

(** [list.includes( v )] *)
Definition includes (l : list string) (v : option string) : bool :=
  existsb (strict_eq v) l.

(** Truthiness of an identifier-valued field: [undefined] and 0 are falsy. *)
Definition truthy_id (v : option Z) : bool :=
  match v with
  | Some z => negb (Z.eqb z 0)
  | None => false
  end.

(** A date string, when present, is not empty. *)
Definition truthy_date (v : option date) : bool :=
  match v with
  | Some _ => true
  | None => false
  end.

(** [insertId] of an [AUTO_INCREMENT] key: past every id in the table. *)
Definition next_bet_id (db : database) : Z :=
  (1 + fold_left Z.max (map Bet.id (bets db)) 0)%Z.

Definition insert_bet (row : Bet.t) (db : database) : database :=
  {| bookMakers := bookMakers db;
     bets := bets db ++ [row];
     transactions := transactions db |}.

(** [createBet]: the response and the database it leaves.  Once the
    checks have passed every required field is present, which the [match]
    on them spells out. *)
Definition createBet (db : database) (body : BetBody.t)
  : response Bet.t * database :=
  let idBookMaker := BetBody.idBookMaker body in
  let bank := BetBody.bank body in
  let betType := BetBody.betType body in
  let betDate := BetBody.betDate body in
  let eventDate := BetBody.eventDate body in
  let event := BetBody.event body in
  let bet := BetBody.bet body in
  let stake := BetBody.stake body in
  let odds := BetBody.odds body in
  let status := BetBody.status body in
  let info := BetBody.info body in
  if negb (truthy_id idBookMaker) || negb (truthy_string bank)
     || negb (truthy_string betType) || negb (truthy_date betDate)
     || negb (truthy_date eventDate) || negb (truthy_string event)
     || negb (truthy_string bet) || negb (truthy stake)
     || negb (truthy odds) || negb (truthy_string status)
  then (Message 400 "Todos los campos son obligatorios excepto info", db)
  else if negb (includes validBanks bank)
  then (Message 400 "El tipo de banca debe ser real o freebet", db)
  else if negb (includes validTypes betType)
  then (Message 400 "Tipo de apuesta no valido", db)
  else if negb (includes validStatus status)
  then (Message 400 "Estado de apuesta no valido", db)
  else
    match idBookMaker, bank, betType, betDate, eventDate, event, bet, status with
    | Some idBookMaker', Some bank', Some betType', Some betDate',
      Some eventDate', Some event', Some bet', Some status' =>
        match select_bookMaker db idBookMaker' with
        | None => (Message 404 "La casa de apuestas especificada no existe", db)
        | Some bookMaker =>
            match
              liability <- calculateLiability status betType stake odds ;;
              result <- calculateResult status betType stake odds
                          (Num liability)
                          (BookMaker.number_property bookMaker "commission") ;;
              Normal (liability, result)
            with
            | Throw _ => (Message 500 "Error al crear la apuesta", db)
            | Normal (liability, result) =>
                let row :=
                  {| Bet.id := next_bet_id db;
                     Bet.betDate := betDate';
                     Bet.idBookMaker := idBookMaker';
                     Bet.bank := bank';
                     Bet.betType := betType';
                     Bet.eventDate := eventDate';
                     Bet.event := event';
                     Bet.bet := bet';
                     Bet.stake := ToNumber stake;
                     Bet.odds := ToNumber odds;
                     Bet.status := status';
                     Bet.liability := liability;
                     Bet.result := result;
                     Bet.info := info |} in
                (Json 201 row, insert_bet row db)
            end
        end
    | _, _, _, _, _, _, _, _ =>
        (Message 400 "Todos los campos son obligatorios excepto info", db)
    end.

(** [a || b] on strings. *)
Definition string_or (a : option string) (b : string) : string :=
  match a with
  | Some s => if String.eqb s "" then b else s
  | None => b
  end.

(** [a || b] on values. *)
Definition value_or (a b : value) : value :=
  if truthy a then a else b.

(** [COALESCE(?, column)] *)
Definition coalesce {A : Type} (parameter : option A) (column : A) : A :=
  match parameter with
  | Some v => v
  | None => column
  end.

Definition coalesce_number (parameter : value) (column : float) : float :=
  match parameter with
  | Of (Num x) => x
  | Of _ => column
  | Other _ number => number
  end.

(** The [UPDATE bets SET ... WHERE id = ?] of [updateBet]. *)
Definition update_bet_row (body : BetBody.t) (liability result : float)
    (row : Bet.t) : Bet.t :=
  {| Bet.id := Bet.id row;
     Bet.betDate := coalesce (BetBody.betDate body) (Bet.betDate row);
     Bet.idBookMaker := coalesce (BetBody.idBookMaker body) (Bet.idBookMaker row);
     Bet.bank := coalesce (BetBody.bank body) (Bet.bank row);
     Bet.betType := coalesce (BetBody.betType body) (Bet.betType row);
     Bet.eventDate := coalesce (BetBody.eventDate body) (Bet.eventDate row);
     Bet.event := coalesce (BetBody.event body) (Bet.event row);
     Bet.bet := coalesce (BetBody.bet body) (Bet.bet row);
     Bet.stake := coalesce_number (BetBody.stake body) (Bet.stake row);
     Bet.odds := coalesce_number (BetBody.odds body) (Bet.odds row);
     Bet.status := coalesce (BetBody.status body) (Bet.status row);
     Bet.liability := liability;
     Bet.result := result;
     Bet.info := match BetBody.info body with
                 | Some i => Some i
                 | None => Bet.info row
                 end |}.

Definition update_bets (id : Z) (body : BetBody.t) (liability result : float)
    (db : database) : database :=
  {| bookMakers := bookMakers db;
     bets := map (fun row => if Z.eqb (Bet.id row) id
                             then update_bet_row body liability result row
                             else row) (bets db);
     transactions := transactions db |}.

(** Reading an identifier no enclosing scope binds. *)
Definition unbound_identifier {A : Type} (name : string) : completion A :=
  Throw (ReferenceError name).

(** [updateBet]; [id] is the integer the route parameter spells.  The
    [const bookMaker] of line 285 is declared inside the
    block of [if ( idBookMaker )], so it is bound in that block alone; where
    [bookMaker.commission] is read (line 329) no scope binds [bookMaker]. *)
Definition updateBet (db : database) (id : Z) (body : BetBody.t)
  : response (option (Bet.t * string)) * database :=
  let idBookMaker := BetBody.idBookMaker body in
  let bank := BetBody.bank body in
  let betType := BetBody.betType body in
  let stake := BetBody.stake body in
  let odds := BetBody.odds body in
  let status := BetBody.status body in
  match select_bet db id with
  | None => (Message 404 "No se encontro la apuesta", db)
  | Some existingBet =>
      if truthy_id idBookMaker
         && match select_bookMaker db (coalesce idBookMaker 0%Z) with
            | Some bookMaker => false
            | None => true
            end
      then (Message 404 "La casa de apuestas especificada no existe", db)
      else if truthy_string bank && negb (includes validBanks bank)
      then (Message 400 "El tipo de banca debe ser real o freebet", db)
      else if truthy_string betType && negb (includes validTypes betType)
      then (Message 400 "Tipo de apuesta no valido", db)
      else if truthy_string status && negb (includes validStatus status)
      then (Message 400 "Estado de apuesta no valido", db)
      else
        let finalBetType := string_or betType (Bet.betType existingBet) in
        let finalStake := value_or stake (Num (Bet.stake existingBet)) in
        let finalOdds := value_or odds (Num (Bet.odds existingBet)) in
        let finalStatus := string_or status (Bet.status existingBet) in
        match
          liability <- calculateLiability status betType stake odds ;;
          commission <- unbound_identifier "bookMaker" ;;
          result <- calculateResult status betType stake odds
                      (Num liability) commission ;;
          Normal (liability, result)
        with
        | Throw _ => (Message 500 "Error al actualizar la apuesta", db)
        | Normal (liability, result) =>
            let db' := update_bets id body liability result db in
            let updatedBet :=
              match select_bet db' id with
              | Some row =>
                  match select_bookMaker db' (Bet.idBookMaker row) with
                  | Some bm => Some (row, BookMaker.name bm)
                  | None => None
                  end
              | None => None
              end in
            (Json 200 updatedBet, db')
        end
  end.

(** ** [getBetStats]: the statistics derived from each row of the query *)

(** A row of the [GROUP BY] query of [getBetStats], one per bookmaker. *)
Module BetStat.
Record t : Type := {
  bookMakerName : string;
  totalBets : float;
  wonBets : float;
  lostBets : float;
  pendingBets : float;
  totalStaked : float;
  totalResult : float;
  totalLiability : float;
  firstBet : date;
  lastBet : date
}.
End BetStat.

Module EnhancedStat.
Record t : Type := {
  stat : BetStat.t;
  winRate : float;
  avgStake : float;
  roi : float
}.
End EnhancedStat.

(** The arrow function mapped over [stats] (lines 549-554). *)
Definition enhance_stat (stat : BetStat.t) : EnhancedStat.t :=
  let wonBets := BetStat.wonBets stat in
  let lostBets := BetStat.lostBets stat in
  let totalStaked := BetStat.totalStaked stat in
  let totalResult := BetStat.totalResult stat in
  let totalBets := BetStat.totalBets stat in
  {| EnhancedStat.stat := stat;
     EnhancedStat.winRate :=
       round2 (or_else (Num ((wonBets / (wonBets + lostBets)) * 100)) 0);
     EnhancedStat.avgStake := round2 (totalStaked / totalBets);
     EnhancedStat.roi :=
       round2 (or_else (Num ((totalResult / totalStaked) * 100)) 0) |}.

(** [getBetStats] from the rows [dbAll] returned. *)
Definition getBetStats (stats : list BetStat.t)
  : response (list EnhancedStat.t) :=
  match stats with
  | [] => Empty 204
  | _ => Json 200 (map enhance_stat stats)
  end.

(** ** [getFreebetConversionRate] *)

(** A row of its query; [SUM] and [AVG] over a nullable column, and the
    sub-select over bets, may be [NULL]. *)
Module FreebetStat.
Record t : Type := {
  bookMakerName : string;
  totalFreebets : float;
  totalFreebetAmount : numeric;
  avgFreebetAmount : numeric;
  receivedFreebets : float;
  rejectedFreebets : float;
  totalProfit : numeric
}.
End FreebetStat.

Module EnrichedFreebetStat.
Record t : Type := {
  bookMakerName : string;
  totalFreebets : float;
  totalFreebetAmount : float;
  avgFreebetAmount : float;
  receivedFreebets : float;
  rejectedFreebets : float;
  totalProfit : float;
  conversionRate : float;
  successRate : float
}.
End EnrichedFreebetStat.

(** [v?.toFixed(2)]: [undefined] when [v] is [undefined] or [null]. *)
Definition optional_toFixed (v : numeric) : option numeric_string :=
  match v with
  | Num x => Some (toFixed2 x)
  | _ => None
  end.

(** [s || 0] on the outcome of [?.toFixed(2)], then [Number(...)]. *)
Definition Number_or_zero (s : option numeric_string) : float :=
  match s with
  | Some str => if truthy_numeric_string str then Number str else 0
  | None => 0
  end.

(** The arrow function mapped over [stats] (lines 666-673). *)
Definition enrich_freebet_stat (s : FreebetStat.t) : EnrichedFreebetStat.t :=
  let totalProfit := ToNumber (FreebetStat.totalProfit s) in
  let totalFreebetAmount := ToNumber (FreebetStat.totalFreebetAmount s) in
  {| EnrichedFreebetStat.bookMakerName := FreebetStat.bookMakerName s;
     EnrichedFreebetStat.totalFreebets := FreebetStat.totalFreebets s;
     EnrichedFreebetStat.totalFreebetAmount :=
       Number_or_zero (optional_toFixed (FreebetStat.totalFreebetAmount s));
     EnrichedFreebetStat.avgFreebetAmount :=
       Number_or_zero (optional_toFixed (FreebetStat.avgFreebetAmount s));
     EnrichedFreebetStat.receivedFreebets := FreebetStat.receivedFreebets s;
     EnrichedFreebetStat.rejectedFreebets := FreebetStat.rejectedFreebets s;
     EnrichedFreebetStat.totalProfit :=
       Number_or_zero (optional_toFixed (FreebetStat.totalProfit s));
     EnrichedFreebetStat.conversionRate :=
       Number_or_zero
         (optional_toFixed (Num ((totalProfit / totalFreebetAmount) * 100)));
     EnrichedFreebetStat.successRate :=
       Number_or_zero
         (optional_toFixed
            (Num ((FreebetStat.receivedFreebets s
                   / FreebetStat.totalFreebets s) * 100))) |}.

Module FreebetTotals.
Record t : Type := {
  totalFreebets : float;
  totalAmount : float;
  totalProfit : float;
  receivedFreebets : float;
  rejectedFreebets : float
}.
End FreebetTotals.

Module ConversionReport.
Record t : Type := {
  totals : FreebetTotals.t;
  overallConversionRate : float;
  overallSuccessRate : float;
  byBookMaker : list EnrichedFreebetStat.t
}.
End ConversionReport.

(** The reducer of lines 676-688. *)
Definition add_freebet_totals (acc : FreebetTotals.t)
    (curr : EnrichedFreebetStat.t) : FreebetTotals.t :=
  {| FreebetTotals.totalFreebets :=
       FreebetTotals.totalFreebets acc + EnrichedFreebetStat.totalFreebets curr;
     FreebetTotals.totalAmount :=
       FreebetTotals.totalAmount acc
       + EnrichedFreebetStat.totalFreebetAmount curr;
     FreebetTotals.totalProfit :=
       FreebetTotals.totalProfit acc + EnrichedFreebetStat.totalProfit curr;
     FreebetTotals.receivedFreebets :=
       FreebetTotals.receivedFreebets acc
       + EnrichedFreebetStat.receivedFreebets curr;
     FreebetTotals.rejectedFreebets :=
       FreebetTotals.rejectedFreebets acc
       + EnrichedFreebetStat.rejectedFreebets curr |}.

Definition no_freebets : FreebetTotals.t :=
  {| FreebetTotals.totalFreebets := 0;
     FreebetTotals.totalAmount := 0;
     FreebetTotals.totalProfit := 0;
     FreebetTotals.receivedFreebets := 0;
     FreebetTotals.rejectedFreebets := 0 |}.

(** [getFreebetConversionRate] from the rows [dbAll] returned. *)
Definition getFreebetConversionRate (stats : list FreebetStat.t)
  : response ConversionReport.t :=
  match stats with
  | [] => Empty 204
  | _ =>
      let enrichedStats := map enrich_freebet_stat stats in
      let totals := fold_left add_freebet_totals enrichedStats no_freebets in
      Json 200
        {| ConversionReport.totals := totals;
           ConversionReport.overallConversionRate :=
             round2 ((FreebetTotals.totalProfit totals
                      / FreebetTotals.totalAmount totals) * 100);
           ConversionReport.overallSuccessRate :=
             round2 ((FreebetTotals.receivedFreebets totals
                      / FreebetTotals.totalFreebets totals) * 100);
           ConversionReport.byBookMaker := enrichedStats |}
  end.

(** ** [getBookMakerBalance] *)

Definition is_pending (b : Bet.t) : bool := String.eqb (Bet.status b) "pending".

Definition is_deposit (t : Transaction.t) : bool :=
  String.eqb (Transaction.type t) "deposit".

Definition is_withdrawal (t : Transaction.t) : bool :=
  String.eqb (Transaction.type t) "withdrawal".

(** [CASE WHEN condition THEN value ELSE 0 END] *)
Definition case_when (condition : bool) (value : float) : float :=
  if condition then value else 0.

Definition deposit_term (t : Transaction.t) : float :=
  case_when (is_deposit t) (Transaction.amount t).

Definition withdrawal_term (t : Transaction.t) : float :=
  case_when (is_withdrawal t) (Transaction.amount t).

Definition liability_term (b : Bet.t) : float :=
  case_when (is_pending b) (Bet.liability b).

Definition transactions_of (db : database) (id : Z) : list Transaction.t :=
  filter (fun t => Z.eqb (Transaction.idBookMaker t) id) (transactions db).

Definition bets_of (db : database) (id : Z) : list Bet.t :=
  filter (fun b => Z.eqb (Bet.idBookMaker b) id) (bets db).

Module Breakdown.
Record t : Type := {
  initialBalance : float;
  totalDeposits : float;
  totalWithdrawals : float;
  totalResults : float;
  totalLiability : float
}.
End Breakdown.

Module BalanceReport.
Record t : Type := {
  bookMakerName : string;
  balance : float;
  breakdown : Breakdown.t
}.
End BalanceReport.

(** [getBookMakerBalance]; [id] is the integer the route parameter spells. *)
Definition getBookMakerBalance (db : database) (id : Z)
  : response BalanceReport.t :=
  match select_bookMaker db id with
  | None => Message 404 "No se encontro la Casa de Apuestas"
  | Some bookMaker =>
      (* transactionsSql *)
      let transactionsResult_totalDeposits :=
        sql_sum (map deposit_term (transactions_of db id)) in
      let transactionsResult_totalWithdrawals :=
        sql_sum (map withdrawal_term (transactions_of db id)) in
      (* betsSql *)
      let betsResult_totalResults :=
        sql_sum (map Bet.result (bets_of db id)) in
      let betsResult_totalLiability :=
        sql_sum (map liability_term (bets_of db id)) in
      let totalDeposits := or_else transactionsResult_totalDeposits 0 in
      let totalWithdrawals := or_else transactionsResult_totalWithdrawals 0 in
      let totalResults := or_else betsResult_totalResults 0 in
      let totalLiability := or_else betsResult_totalLiability 0 in
      let balance :=
        BookMaker.initialBalance bookMaker + totalDeposits - totalWithdrawals
        + totalResults - totalLiability in
      Json 200
        {| BalanceReport.bookMakerName := BookMaker.name bookMaker;
           BalanceReport.balance := round2 balance;
           BalanceReport.breakdown :=
             {| Breakdown.initialBalance :=
                  round2 (BookMaker.initialBalance bookMaker);
                Breakdown.totalDeposits := round2 totalDeposits;
                Breakdown.totalWithdrawals := round2 totalWithdrawals;
                Breakdown.totalResults := round2 totalResults;
                Breakdown.totalLiability := round2 totalLiability |} |}
  end.

(** ** [getBalanceByPeriod] *)

(** The columns of the tables, as the statements of the handlers name
    them, each with its key [id]:
    [INSERT INTO transactions (idBookMaker, type, amount, date, info)],
    [INSERT INTO bookMakers (name, type, comission, info, initialBalance)],
    [INSERT INTO bets (idBookMaker, bank, betType, betDate, eventDate,
    event, bet, stake, odds, status, liability, result, info)]. *)
Definition transactions_columns : list string :=
  ["id"; "idBookMaker"; "type"; "amount"; "date"; "info"].

Definition bookMakers_columns : list string :=
  ["id"; "name"; "type"; "comission"; "info"; "initialBalance"].

Definition bets_columns : list string :=
  ["id"; "idBookMaker"; "bank"; "betType"; "betDate"; "eventDate"; "event";
   "bet"; "stake"; "odds"; "status"; "liability"; "result"; "info"].

(** A column written without its table, over the tables of a
    [FROM ... JOIN ...]: the engine looks for it in each of them. *)
Inductive resolution : Type :=
| Resolved (table : nat)     (* the one table that has it *)
| Unknown                    (* no table has it *)
| Ambiguous.                 (* more than one has it *)

Definition has_column (columns : list string) (column : string) : bool :=
  existsb (String.eqb column) columns.

(** The positions, from [index] on, of the tables that have the column. *)
Fixpoint tables_with (tables : list (list string)) (column : string)
    (index : nat) : list nat :=
  match tables with
  | [] => []
  | columns :: rest =>
      if has_column columns column
      then index :: tables_with rest column (S index)
      else tables_with rest column (S index)
  end.

Definition resolve (tables : list (list string)) (column : string)
  : resolution :=
  match tables_with tables column 0 with
  | [] => Unknown
  | [table] => Resolved table
  | _ => Ambiguous
  end.

(** The error with which the engine refuses a statement: that of the first
    unqualified column which does not name a single table; [None] when the
    statement is accepted. *)
Fixpoint statement_error (tables : list (list string))
    (unqualified : list string) : option string :=
  match unqualified with
  | [] => None
  | column :: rest =>
      match resolve tables column with
      | Resolved _ => statement_error tables rest
      | Unknown => Some ("Unknown column '" ++ column ++ "' in 'field list'")
      | Ambiguous =>
          Some ("Column '" ++ column ++ "' in field list is ambiguous")
      end
  end.

(** The columns [transactionsSql] (lines 586-595) writes without a table, in
    the order of the statement; [bm.name], [t.idBookMaker], [bm.id] and
    [t.date] carry theirs. *)
Definition transactionsSql_columns : list string :=
  ["type"; "amount"; "type"; "amount"].

(** Those of [betsSql] (lines 598-607). *)
Definition betsSql_columns : list string :=
  ["result"; "status"; "liability"].

(** Those of the statement of [getTransactionStats] (lines 266-277), which
    computes the same two sums over the same join and writes [t.type]. *)
Definition transactionStats_columns : list string :=
  ["amount"; "amount"].

Section Period.
Context {Report : Type}.

(** What lines 614-650 answer from the rows of the two statements.  They
    run once both statements have returned rows; nothing below depends on
    what they do, so they are a parameter. *)
Variable on_rows : database -> date -> date -> response Report.

(** [getBalanceByPeriod].  [dbAll] rethrows the error of a statement the
    engine refuses, [Promise.all] rejects with it and the [catch] of the
    handler answers 500. *)
Definition getBalanceByPeriod (db : database) (startDate endDate : date)
  : response Report :=
  match statement_error [transactions_columns; bookMakers_columns]
                        transactionsSql_columns,
        statement_error [bets_columns; bookMakers_columns]
                        betsSql_columns with
  | None, None => on_rows db startDate endDate
  | _, _ => Message 500 "Error al obtener el balance"
  end.
End Period.

(** ** The bets controller: [deleteBet] *)

(** [DELETE FROM bets WHERE id = ?] *)
Definition delete_bets (id : Z) (db : database) : database :=
  {| bookMakers := bookMakers db;
     bets := filter (fun b => negb (Z.eqb (Bet.id b) id)) (bets db);
     transactions := transactions db |}.

(** [affectedRows] of that statement. *)
Definition affected_bets (id : Z) (db : database) : nat :=
  length (filter (fun b => Z.eqb (Bet.id b) id) (bets db)).

(** [deleteBet]; [id] is the integer the route parameter spells.  The body
    of the 200 response is [deletedId]. *)
Definition deleteBet (db : database) (id : Z) : response Z * database :=
  match select_bet db id with
  | None => (Message 404 "No se encontro la apuesta", db)
  | Some bet =>
      if String.eqb (Bet.status bet) "won" || String.eqb (Bet.status bet) "lost"
      then (Message 400 "No se puede eliminar una apuesta ya resuelta", db)
      else
        let affectedRows := affected_bets id db in
        let db' := delete_bets id db in
        if Nat.eqb affectedRows 0
        then (Message 404 "No se pudo eliminar la apuesta", db')
        else (Json 200 id, db')
  end.

(** ** The transactions controller: [createTransaction] *)

Module TransactionBody.
Record t : Type := {
  idBookMaker : option Z;
  type : option string;
  amount : value;
  date : option date;
  info : option string
}.
End TransactionBody.

Definition validTransactionTypes : list string := ["deposit"; "withdrawal"].

Definition next_transaction_id (db : database) : Z :=
  (1 + fold_left Z.max (map Transaction.id (transactions db)) 0)%Z.

Definition insert_transaction (row : Transaction.t) (db : database)
  : database :=
  {| bookMakers := bookMakers db;
     bets := bets db;
     transactions := transactions db ++ [row] |}.

Definition createTransaction (db : database) (body : TransactionBody.t)
  : response Transaction.t * database :=
  let idBookMaker := TransactionBody.idBookMaker body in
  let type := TransactionBody.type body in
  let amount := TransactionBody.amount body in
  let date := TransactionBody.date body in
  let info := TransactionBody.info body in
  if negb (truthy_id idBookMaker) || negb (truthy_string type)
     || negb (truthy amount) || negb (truthy_date date)
  then (Message 400 "Los campos idBookMaker, type, amount y date son obligatorios", db)
  else if negb (includes validTransactionTypes type)
  then (Message 400 "El tipo debe ser deposit o withdrawal", db)
  else
    match idBookMaker, type, date with
    | Some idBookMaker', Some type', Some date' =>
        match select_bookMaker db idBookMaker' with
        | None => (Message 404 "La casa de apuestas especificada no existe", db)
        | Some bookMaker =>
            let row :=
              {| Transaction.id := next_transaction_id db;
                 Transaction.date := date';
                 Transaction.idBookMaker := idBookMaker';
                 Transaction.type := type';
                 Transaction.amount := ToNumber amount;
                 Transaction.info := info |} in
            (Json 201 row, insert_transaction row db)
        end
    | _, _, _ =>
        (Message 400 "Los campos idBookMaker, type, amount y date son obligatorios", db)
    end.

(** ** The bookmakers controller: [createBookMaker], [updateBookMaker],
    [deleteBookMaker] *)

Module BookMakerBody.
Record t : Type := {
  name : option string;
  type : option string;
  comission : numeric;
  info : option string;
  initialBalance : numeric
}.
End BookMakerBody.

Definition validBookMakerTypes : list string := ["regular"; "exchange"].

(** [typeof v !== 'number' || v < 0 || v > 100] *)
Definition not_a_percentage (v : numeric) : bool :=
  match v with
  | Num c => (c <? 0) || (100 <? c)
  | _ => true
  end.

(** [typeof v !== 'number'] *)
Definition not_a_number (v : numeric) : bool :=
  match v with
  | Num _ => false
  | _ => true
  end.

(** [v === undefined] *)
Definition is_undefined (v : numeric) : bool :=
  match v with
  | Undefined => true
  | _ => false
  end.

(** [s && s.length > n] *)
Definition longer_than (s : option string) (n : nat) : bool :=
  truthy_string s
  && match s with
     | Some text => Nat.ltb n (String.length text)
     | None => false
     end.

Definition next_bookMaker_id (db : database) : Z :=
  (1 + fold_left Z.max (map BookMaker.id (bookMakers db)) 0)%Z.

Definition insert_bookMaker (row : BookMaker.t) (db : database) : database :=
  {| bookMakers := bookMakers db ++ [row];
     bets := bets db;
     transactions := transactions db |}.

(** [SELECT id FROM bookMakers WHERE name = ?], names compared as written. *)
Definition select_bookMaker_named (db : database) (name : string)
  : option BookMaker.t :=
  find (fun bm => String.eqb (BookMaker.name bm) name) (bookMakers db).

Definition createBookMaker (db : database) (body : BookMakerBody.t)
  : response BookMaker.t * database :=
  let name := BookMakerBody.name body in
  let type := BookMakerBody.type body in
  let comission := BookMakerBody.comission body in
  let info := BookMakerBody.info body in
  let initialBalance := BookMakerBody.initialBalance body in
  if negb (truthy_string name) || negb (truthy_string type)
     || is_undefined comission || is_undefined initialBalance
  then (Message 400 "Los campos name, type y comission son obligatorios", db)
  else if negb (includes validBookMakerTypes type)
  then (Message 400 "El tipo debe ser regular o exchange", db)
  else if not_a_percentage comission
  then (Message 400 "La comision debe ser un numero entre 0 y 100", db)
  else if not_a_number initialBalance
  then (Message 400 "El saldo inicial debe ser un numero", db)
  else if longer_than name 100
  then (Message 400 "El nombre no puede exceder los 100 caracteres", db)
  else if longer_than info 500
  then (Message 400 "La informacion no puede exceder los 500 caracteres", db)
  else
    match name, type with
    | Some name', Some type' =>
        match select_bookMaker_named db name' with
        | Some existingBookMaker =>
            (Message 409 "Ya existe una Casa de Apuestas con el nombre", db)
        | None =>
            let row :=
              {| BookMaker.id := next_bookMaker_id db;
                 BookMaker.name := name';
                 BookMaker.type := type';
                 BookMaker.comission := ToNumber comission;
                 BookMaker.initialBalance := ToNumber initialBalance;
                 BookMaker.info := info |} in
            (Json 201 row, insert_bookMaker row db)
        end
    | _, _ =>
        (Message 400 "Los campos name, type y comission son obligatorios", db)
    end.

(** The [UPDATE bookMakers SET ... WHERE id = ?] of [updateBookMaker]. *)
Definition update_bookMaker_row (body : BookMakerBody.t) (row : BookMaker.t)
  : BookMaker.t :=
  {| BookMaker.id := BookMaker.id row;
     BookMaker.name := coalesce (BookMakerBody.name body) (BookMaker.name row);
     BookMaker.type := coalesce (BookMakerBody.type body) (BookMaker.type row);
     BookMaker.comission :=
       coalesce_number (BookMakerBody.comission body) (BookMaker.comission row);
     BookMaker.initialBalance :=
       coalesce_number (BookMakerBody.initialBalance body)
                       (BookMaker.initialBalance row);
     BookMaker.info := match BookMakerBody.info body with
                       | Some i => Some i
                       | None => BookMaker.info row
                       end |}.

Definition update_bookMakers (id : Z) (body : BookMakerBody.t) (db : database)
  : database :=
  {| bookMakers := map (fun row => if Z.eqb (BookMaker.id row) id
                                   then update_bookMaker_row body row
                                   else row) (bookMakers db);
     bets := bets db;
     transactions := transactions db |}.

(** [SELECT id FROM bookMakers WHERE name = ? AND id != ?] *)
Definition select_other_named (db : database) (name : string) (id : Z)
  : option BookMaker.t :=
  find (fun bm => String.eqb (BookMaker.name bm) name
                  && negb (Z.eqb (BookMaker.id bm) id))
       (bookMakers db).

Definition updateBookMaker (db : database) (id : Z) (body : BookMakerBody.t)
  : response (option BookMaker.t) * database :=
  let name := BookMakerBody.name body in
  let type := BookMakerBody.type body in
  let comission := BookMakerBody.comission body in
  let initialBalance := BookMakerBody.initialBalance body in
  match select_bookMaker db id with
  | None => (Message 404 "No se encontro la Casa de Apuestas", db)
  | Some existingBookMaker =>
      if truthy_string type && negb (includes validBookMakerTypes type)
      then (Message 400 "El tipo debe ser regular o exchange", db)
      else if negb (is_undefined comission) && not_a_percentage comission
      then (Message 400 "La comision debe ser un numero entre 0 y 100", db)
      else if negb (is_undefined initialBalance) && not_a_number initialBalance
      then (Message 400 "El saldo inicial debe ser un numero", db)
      else if truthy_string name
              && match select_other_named db (string_or name "") id with
                 | Some nameExists => true
                 | None => false
                 end
      then (Message 409 "Ya existe otra Casa de Apuestas con el nombre", db)
      else
        let db' := update_bookMakers id body db in
        (Json 200 (select_bookMaker db' id), db')
  end.

(** A row of the [freebets] table; [amount] is a nullable column. *)
Module Freebet.
Record t : Type := {
  id : Z;
  idBookMaker : Z;
  date : date;
  type : string;
  amount : numeric;
  event : string;
  bet : option string;
  requirements : option string;
  status : string
}.
End Freebet.

(** [DELETE FROM bookMakers WHERE id = ?] *)
Definition delete_bookMakers (id : Z) (db : database) : database :=
  {| bookMakers :=
       filter (fun bm => negb (Z.eqb (BookMaker.id bm) id)) (bookMakers db);
     bets := bets db;
     transactions := transactions db |}.

(** [deleteBookMaker], over the database and the [freebets] table. *)
Definition deleteBookMaker (db : database) (freebets : list Freebet.t) (id : Z)
  : response Z * database :=
  match select_bookMaker db id with
  | None => (Message 404 "No se encontro la Casa de Apuestas", db)
  | Some bookMaker =>
      let associatedBetsCount := length (bets_of db id) in
      if Nat.ltb 0 associatedBetsCount
      then (Message 409 "No se puede eliminar la Casa de Apuestas porque tiene apuestas asociadas", db)
      else
        let transactionCount := length (transactions_of db id) in
        if Nat.ltb 0 transactionCount
        then (Message 409 "No se puede eliminar la Casa de Apuestas porque tiene transacciones asociadas", db)
        else
          let freebetCount :=
            length (filter (fun f => Z.eqb (Freebet.idBookMaker f) id)
                           freebets) in
          if Nat.ltb 0 freebetCount
          then (Message 409 "No se puede eliminar la Casa de Apuestas porque tiene freebets asociados", db)
          else
            let affectedRows :=
              length (filter (fun bm => Z.eqb (BookMaker.id bm) id)
                             (bookMakers db)) in
            let db' := delete_bookMakers id db in
            if Nat.eqb affectedRows 0
            then (Message 404 "No se pudo eliminar la casa de apuestas", db')
            else (Json 200 id, db')
  end.

(** ** The freebets controller: [createFreebet] and [updateFreebet] *)

Module FreebetBody.
Record t : Type := {
  idBookMaker : option Z;
  type : option string;
  amount : numeric;
  date : option date;
  event : option string;
  bet : option string;
  requirements : option string;
  status : option string
}.
End FreebetBody.

Definition validFreebetTypes : list string :=
  ["freebet-on-win"; "freebet-on-loss"; "bet-and-get"; "loyalty"; "other"].

Definition validFreebetStatus : list string :=
  ["received"; "pending"; "rejected"; "claiming"; "other"].

Definition select_freebet (freebets : list Freebet.t) (id : Z)
  : option Freebet.t :=
  find (fun f => Z.eqb (Freebet.id f) id) freebets.

Definition next_freebet_id (freebets : list Freebet.t) : Z :=
  (1 + fold_left Z.max (map Freebet.id freebets) 0)%Z.

Definition createFreebet (db : database) (freebets : list Freebet.t)
    (body : FreebetBody.t) : response Freebet.t * list Freebet.t :=
  let idBookMaker := FreebetBody.idBookMaker body in
  let type := FreebetBody.type body in
  let amount := FreebetBody.amount body in
  let date := FreebetBody.date body in
  let event := FreebetBody.event body in
  let bet := FreebetBody.bet body in
  let requirements := FreebetBody.requirements body in
  let status := FreebetBody.status body in
  if negb (truthy_id idBookMaker) || negb (truthy_string type)
     || negb (truthy amount) || negb (truthy_date date)
     || negb (truthy_string event) || negb (truthy_string status)
  then (Message 400 "Los campos idBookMaker, type, amount, date, event y status son obligatorios", freebets)
  else if negb (includes validFreebetTypes type)
  then (Message 400 "Tipo de freebet no valido", freebets)
  else if negb (includes validFreebetStatus status)
  then (Message 400 "Estado de freebet no valido", freebets)
  else
    match idBookMaker, type, date, event, status with
    | Some idBookMaker', Some type', Some date', Some event', Some status' =>
        match select_bookMaker db idBookMaker' with
        | None =>
            (Message 404 "La casa de apuestas especificada no existe", freebets)
        | Some bookMaker =>
            let row :=
              {| Freebet.id := next_freebet_id freebets;
                 Freebet.idBookMaker := idBookMaker';
                 Freebet.date := date';
                 Freebet.type := type';
                 Freebet.amount := amount;
                 Freebet.event := event';
                 Freebet.bet := bet;
                 Freebet.requirements := requirements;
                 Freebet.status := status' |} in
            (Json 201 row, (freebets ++ [row])%list)
        end
    | _, _, _, _, _ =>
        (Message 400 "Los campos idBookMaker, type, amount, date, event y status son obligatorios", freebets)
    end.

(** [COALESCE(?, amount)] on the nullable column: [undefined] and [null]
    both reach the statement as [NULL]. *)
Definition coalesce_numeric (parameter column : numeric) : numeric :=
  match parameter with
  | Num x => Num x
  | _ => column
  end.

Definition coalesce_option {A : Type} (parameter column : option A)
  : option A :=
  match parameter with
  | Some v => Some v
  | None => column
  end.

(** The [UPDATE freebets SET ... WHERE id = ?] of [updateFreebet]. *)
Definition update_freebet_row (body : FreebetBody.t) (row : Freebet.t)
  : Freebet.t :=
  {| Freebet.id := Freebet.id row;
     Freebet.idBookMaker :=
       coalesce (FreebetBody.idBookMaker body) (Freebet.idBookMaker row);
     Freebet.date := coalesce (FreebetBody.date body) (Freebet.date row);
     Freebet.type := coalesce (FreebetBody.type body) (Freebet.type row);
     Freebet.amount :=
       coalesce_numeric (FreebetBody.amount body) (Freebet.amount row);
     Freebet.event := coalesce (FreebetBody.event body) (Freebet.event row);
     Freebet.bet := coalesce_option (FreebetBody.bet body) (Freebet.bet row);
     Freebet.requirements :=
       coalesce_option (FreebetBody.requirements body)
                       (Freebet.requirements row);
     Freebet.status := coalesce (FreebetBody.status body) (Freebet.status row) |}.

Definition updateFreebet (freebets : list Freebet.t) (id : Z)
    (body : FreebetBody.t) : response (option Freebet.t) * list Freebet.t :=
  let type := FreebetBody.type body in
  let status := FreebetBody.status body in
  match select_freebet freebets id with
  | None => (Message 404 "No se encontro la freebet", freebets)
  | Some existingFreebet =>
      if truthy_string type && negb (includes validFreebetTypes type)
      then (Message 400 "Tipo de freebet no valido", freebets)
      else if truthy_string status && negb (includes validFreebetStatus status)
      then (Message 400 "Estado de freebet no valido", freebets)
      else
        let freebets' :=
          map (fun row => if Z.eqb (Freebet.id row) id
                          then update_freebet_row body row
                          else row) freebets in
        (Json 200 (select_freebet freebets' id), freebets')
  end.

(** ** [getBookMakerPerformance] *)

(** SQL [COUNT]: the number JavaScript receives. *)
Definition sql_count {A : Type} (rows : list A) : float :=
  number_of_Z (Z.of_nat (length rows)).

(** SQL [AVG]: [NULL] over no row, else the sum over the count. *)
Definition sql_avg (terms : list float) : numeric :=
  match terms with
  | [] => Null
  | x :: rest => Num (fold_left add rest x / sql_count terms)
  end.

(** SQL [MIN] and [MAX]: [NULL] over no row. *)
Definition sql_min (terms : list float) : numeric :=
  match terms with
  | [] => Null
  | x :: rest => Num (fold_left (fun m y => if y <? m then y else m) rest x)
  end.

Definition sql_max (terms : list float) : numeric :=
  match terms with
  | [] => Null
  | x :: rest => Num (fold_left (fun m y => if m <? y then y else m) rest x)
  end.

(** The row of the performance query. *)
Module Performance.
Record t : Type := {
  totalBets : float;
  wonBets : float;
  lostBets : float;
  totalStaked : numeric;
  totalProfit : numeric;
  avgStake : numeric;
  avgOdds : numeric;
  minOdds : numeric;
  maxOdds : numeric;
  betTypesUsed : float
}.
End Performance.

Module EnrichedPerformance.
Record t : Type := {
  totalBets : float;
  wonBets : float;
  lostBets : float;
  totalStaked : float;
  totalProfit : float;
  avgStake : float;
  avgOdds : float;
  minOdds : numeric;
  maxOdds : numeric;
  betTypesUsed : float;
  winRate : float;
  roi : float
}.
End EnrichedPerformance.

Module PerformanceReport.
Record t : Type := {
  bookMakerName : string;
  startDate : option date;   (* [None] is reported as 'All time' *)
  endDate : option date;
  performance : EnrichedPerformance.t
}.
End PerformanceReport.

(** The bets the query aggregates: those of the bookmaker, within the window
    when both of its ends are given. *)
Definition performance_bets (db : database) (id : Z)
    (startDate endDate : option date) : list Bet.t :=
  match startDate, endDate with
  | Some s, Some e =>
      filter (fun b => between (Bet.betDate b) s e) (bets_of db id)
  | _, _ => bets_of db id
  end.

Definition performance_query (rows : list Bet.t) : Performance.t :=
  {| Performance.totalBets := sql_count rows;
     Performance.wonBets :=
       sql_count (filter (fun b => String.eqb (Bet.status b) "won") rows);
     Performance.lostBets :=
       sql_count (filter (fun b => String.eqb (Bet.status b) "lost") rows);
     Performance.totalStaked := sql_sum (map Bet.stake rows);
     Performance.totalProfit := sql_sum (map Bet.result rows);
     Performance.avgStake := sql_avg (map Bet.stake rows);
     Performance.avgOdds := sql_avg (map Bet.odds rows);
     Performance.minOdds := sql_min (map Bet.odds rows);
     Performance.maxOdds := sql_max (map Bet.odds rows);
     Performance.betTypesUsed :=
       sql_count (nodup string_dec (map Bet.betType rows)) |}.

(** The object literal [enrichedPerformance] (lines 705-713). *)
Definition enrich_performance (performance : Performance.t)
  : EnrichedPerformance.t :=
  let wonBets := Performance.wonBets performance in
  let lostBets := Performance.lostBets performance in
  let totalProfit := Performance.totalProfit performance in
  let totalStaked := Performance.totalStaked performance in
  {| EnrichedPerformance.totalBets := Performance.totalBets performance;
     EnrichedPerformance.wonBets := wonBets;
     EnrichedPerformance.lostBets := lostBets;
     EnrichedPerformance.totalStaked :=
       Number_or_zero (optional_toFixed totalStaked);
     EnrichedPerformance.totalProfit :=
       Number_or_zero (optional_toFixed totalProfit);
     EnrichedPerformance.avgStake :=
       Number_or_zero (optional_toFixed (Performance.avgStake performance));
     EnrichedPerformance.avgOdds :=
       Number_or_zero (optional_toFixed (Performance.avgOdds performance));
     EnrichedPerformance.minOdds := Performance.minOdds performance;
     EnrichedPerformance.maxOdds := Performance.maxOdds performance;
     EnrichedPerformance.betTypesUsed := Performance.betTypesUsed performance;
     EnrichedPerformance.winRate :=
       round2 (or_else (Num ((wonBets / (wonBets + lostBets)) * 100)) 0);
     EnrichedPerformance.roi :=
       round2 (or_else (Num ((ToNumber totalProfit / ToNumber totalStaked)
                             * 100)) 0) |}.

(** [getBookMakerPerformance]; [id] is the integer the route parameter
    spells, the two dates are the optional query parameters. *)
Definition getBookMakerPerformance (db : database) (id : Z)
    (startDate endDate : option date) : response PerformanceReport.t :=
  match select_bookMaker db id with
  | None => Message 404 "No se encontro la Casa de Apuestas"
  | Some bookMaker =>
      let performance :=
        performance_query (performance_bets db id startDate endDate) in
      Json 200
        {| PerformanceReport.bookMakerName := BookMaker.name bookMaker;
           PerformanceReport.startDate := startDate;
           PerformanceReport.endDate := endDate;
           PerformanceReport.performance := enrich_performance performance |}
  end.
(** ** The rounding the specification names

    Standard half-up rounding to two decimals, on exact rationals: the
    magnitude goes to the nearest hundredth and a half-cent goes up, away
    from zero. *)

Definition exact_value (x : float) : Q :=
  match Prim2SF x with
  | S754_finite s m e =>
      (if s then -1 else 1) * inject_Z (Z.pos m) * Qpower 2 e
  | _ => 0
  end%Q.

Definition half_up_hundredths (q : Q) : Z :=
  Qfloor (Qabs q * 100 + (1 # 2))%Q.

(** [profit × commissionPercent / 100] rounded half-up, in hundredths. *)
Definition spec_commission_hundredths (profit commissionPercent : Q) : Z :=
  half_up_hundredths (profit * commissionPercent / 100)%Q.

(** [n - 1/2 <= 100 * m * 2^e < n + 1/2], cleared of fractions. *)
Definition nearest_hundredth (m : positive) (e n : Z) : Prop :=
  ((2 * n - 1) * 2 ^ Z.max 0 (- e)
     <= 200 * Z.pos m * 2 ^ Z.max 0 e
     < (2 * n + 1) * 2 ^ Z.max 0 (- e))%Z.

(** A value the calculator produced through [Number(x.toFixed(2))]. *)
Definition rounded_output (v : float) : Prop :=
  v = 0 \/ exists y : float, v = round2 y \/ v = - round2 y.

(** ** The balance formula the specification names *)

(** A sum of amounts, 0 over none. *)
Definition total (amounts : list float) : float := fold_left add amounts 0.

Definition is_settled (b : Bet.t) : bool := negb (is_pending b).

(** [initialBalance + Σdeposits − Σwithdrawals + Σresult(settled bets)
    − Σliability(pending bets)] over the rows of one bookmaker. *)
Definition spec_balance (initialBalance : float)
    (transactions : list Transaction.t) (bets : list Bet.t) : float :=
  initialBalance
  + total (map Transaction.amount (filter is_deposit transactions))
  - total (map Transaction.amount (filter is_withdrawal transactions))
  + total (map Bet.result (filter is_settled bets))
  - total (map Bet.liability (filter is_pending bets)).

(** The calculator's invariant on stored bets: a pending bet carries the
    result 0. *)
Definition pending_results_zero (bets : list Bet.t) : Prop :=
  forall b, In b bets -> is_pending b = true -> Bet.result b = 0.

(** A number a [NUMERIC] column can hold: neither NaN nor an infinity. *)
Definition finite_amount (x : float) : Prop :=
  match Prim2SF x with
  | S754_zero _ | S754_finite _ _ _ => True
  | _ => False
  end.

(** The rows of one bookmaker hold finite amounts. *)
Definition finite_rows (transactions : list Transaction.t)
    (bets : list Bet.t) : Prop :=
  (forall t, In t transactions -> finite_amount (Transaction.amount t))
  /\ (forall b, In b bets ->
        finite_amount (Bet.result b) /\ finite_amount (Bet.liability b)).

(** Two numbers that are equal, or both a zero (of either sign). *)
Definition is_SFzero (f : spec_float) : bool :=
  match f with
  | S754_zero _ => true
  | _ => false
  end.

Definition same_amount (x y : float) : Prop :=
  x = y \/ (is_SFzero (Prim2SF x) = true /\ is_SFzero (Prim2SF y) = true).

(** [name] is a [UNIQUE] column of [bookMakers]. *)
Definition unique_names (db : database) : Prop :=
  NoDup (map BookMaker.name (bookMakers db)).

Definition SFsame (a b : spec_float) : Prop :=
  a = b \/ (is_SFzero a = true /\ is_SFzero b = true).

(** Closes a goal [a <> b] between two binary64 constants, bare or under
    [Normal], by decoding both. *)
Ltac float_differs :=
  let H := fresh "H" in
  intro H;
  lazymatch type of H with
  | Normal _ = Normal _ =>
      apply (f_equal (fun c => match c with
                               | Normal a => Prim2SF a
                               | Throw _ => S754_nan
                               end)) in H
  | _ => apply (f_equal Prim2SF) in H
  end;
  vm_compute in H; discriminate H.

(** ** A small database for worked values *)

Definition exchange : BookMaker.t :=
  {| BookMaker.id := 1;
     BookMaker.name := "Exchange";
     BookMaker.type := "exchange";
     BookMaker.comission := 5;
     BookMaker.initialBalance := 100.125;
     BookMaker.info := None |}.

Definition bookie : BookMaker.t :=
  {| BookMaker.id := 2;
     BookMaker.name := "Bookie";
     BookMaker.type := "regular";
     BookMaker.comission := 0;
     BookMaker.initialBalance := 50;
     BookMaker.info := None |}.

Definition won_back_bet : Bet.t :=
  {| Bet.id := 1;
     Bet.betDate := 12;
     Bet.idBookMaker := 1;
     Bet.bank := "real";
     Bet.betType := "backBet";
     Bet.eventDate := 13;
     Bet.event := "Final";
     Bet.bet := "Home";
     Bet.stake := 100;
     Bet.odds := 2.5;
     Bet.status := "won";
     Bet.liability := 0;
     Bet.result := 150;
     Bet.info := None |}.

Definition pending_lay_bet : Bet.t :=
  {| Bet.id := 2;
     Bet.betDate := 15;
     Bet.idBookMaker := 2;
     Bet.bank := "real";
     Bet.betType := "layBet";
     Bet.eventDate := 16;
     Bet.event := "Final";
     Bet.bet := "Away";
     Bet.stake := 100;
     Bet.odds := 2.5;
     Bet.status := "pending";
     Bet.liability := 150;
     Bet.result := 0;
     Bet.info := None |}.

Definition sample_transactions : list Transaction.t :=
  [ {| Transaction.id := 1; Transaction.date := 10;
       Transaction.idBookMaker := 1; Transaction.type := "deposit";
       Transaction.amount := 50; Transaction.info := None |};
    {| Transaction.id := 2; Transaction.date := 20;
       Transaction.idBookMaker := 1; Transaction.type := "withdrawal";
       Transaction.amount := 20; Transaction.info := None |};
    {| Transaction.id := 3; Transaction.date := 40;
       Transaction.idBookMaker := 1; Transaction.type := "deposit";
       Transaction.amount := 10; Transaction.info := None |} ].

Definition sample_db : database :=
  {| bookMakers := [exchange; bookie];
     bets := [won_back_bet; pending_lay_bet];
     transactions := sample_transactions |}.


(** A request that settles a bet as won and names its bookmaker. *)
Definition settle_request : BetBody.t :=
  {| BetBody.idBookMaker := Some 2%Z;
     BetBody.bank := None;
     BetBody.betType := None;
     BetBody.betDate := None;
     BetBody.eventDate := None;
     BetBody.event := None;
     BetBody.bet := None;
     BetBody.stake := Undefined;
     BetBody.odds := Undefined;
     BetBody.status := Some "won";
     BetBody.info := None |}.

(** The same request without [idBookMaker]. *)
Definition settle_request_no_bookmaker : BetBody.t :=
  {| BetBody.idBookMaker := None;
     BetBody.bank := None;
     BetBody.betType := None;
     BetBody.betDate := None;
     BetBody.eventDate := None;
     BetBody.event := None;
     BetBody.bet := None;
     BetBody.stake := Undefined;
     BetBody.odds := Undefined;
     BetBody.status := Some "won";
     BetBody.info := None |}.

(** The row of the conversion query for a bookmaker whose only freebet has
    amount 0 (as after [updateFreebet] with [amount: 0]) and who has no
    settled free bet. *)
Definition zero_amount_freebets : FreebetStat.t :=
  {| FreebetStat.bookMakerName := "Exchange";
     FreebetStat.totalFreebets := 1;
     FreebetStat.totalFreebetAmount := Num 0;
     FreebetStat.avgFreebetAmount := Num 0;
     FreebetStat.receivedFreebets := 1;
     FreebetStat.rejectedFreebets := 0;
     FreebetStat.totalProfit := Null |}.

(** The row of [getBetStats] for a bookmaker whose bets are all pending. *)
Definition only_pending_bets : BetStat.t :=
  {| BetStat.bookMakerName := "Bookie";
     BetStat.totalBets := 1;
     BetStat.wonBets := 0;
     BetStat.lostBets := 0;
     BetStat.pendingBets := 1;
     BetStat.totalStaked := 100;
     BetStat.totalResult := 0;
     BetStat.totalLiability := 150;
     BetStat.firstBet := 15;
     BetStat.lastBet := 15 |}.

(** ** What the handlers keep *)

(** A stored bet as the calculator leaves it: a pending bet has no result
    yet, a settled one no liability left. *)
Definition settled_consistently (row : Bet.t) : Prop :=
  (Bet.status row = "pending" -> Bet.result row = 0)
  /\ (Bet.status row <> "pending" -> Bet.liability row = 0).

(** A stored bet whose enumerated columns hold listed values and whose
    bookmaker exists. *)
Definition well_formed_bet (db : database) (row : Bet.t) : Prop :=
  In (Bet.bank row) validBanks
  /\ In (Bet.betType row) validTypes
  /\ In (Bet.status row) validStatus
  /\ select_bookMaker db (Bet.idBookMaker row) <> None.

(** [id] is the primary key of [bookMakers]. *)
Definition unique_ids (db : database) : Prop :=
  NoDup (map BookMaker.id (bookMakers db)).

(** Every stored commission passes the check of the handlers. *)
Definition percentages (db : database) : Prop :=
  forall bm, In bm (bookMakers db) ->
    not_a_percentage (Num (BookMaker.comission bm)) = false.

(** Every bet, transaction and freebet names a bookmaker of the table. *)
Definition references_kept (db : database) (freebets : list Freebet.t)
  : Prop :=
  (forall b, In b (bets db) -> select_bookMaker db (Bet.idBookMaker b) <> None)
  /\ (forall t, In t (transactions db) ->
        select_bookMaker db (Transaction.idBookMaker t) <> None)
  /\ (forall f, In f freebets ->
        select_bookMaker db (Freebet.idBookMaker f) <> None).

(** A pending lay bet of 20 at 3 placed with the bookie. *)
Definition pending_lay_request : BetBody.t :=
  {| BetBody.idBookMaker := Some 2%Z;
     BetBody.bank := Some "real";
     BetBody.betType := Some "layBet";
     BetBody.betDate := Some 30%Z;
     BetBody.eventDate := Some 31%Z;
     BetBody.event := Some "Derby";
     BetBody.bet := Some "Draw";
     BetBody.stake := Num 20;
     BetBody.odds := Num 3;
     BetBody.status := Some "pending";
     BetBody.info := None |}.

(** The same lay bet entered once it has lost. *)
Definition lost_lay_request : BetBody.t :=
  {| BetBody.idBookMaker := Some 2%Z;
     BetBody.bank := Some "real";
     BetBody.betType := Some "layBet";
     BetBody.betDate := Some 30%Z;
     BetBody.eventDate := Some 31%Z;
     BetBody.event := Some "Derby";
     BetBody.bet := Some "Draw";
     BetBody.stake := Num 20;
     BetBody.odds := Num 3;
     BetBody.status := Some "lost";
     BetBody.info := None |}.

(** The row a handler answered with, [fallback] when it answered none. *)
Definition created {A : Type} (r : response A) (fallback : A) : A :=
  match r with
  | Json _ row => row
  | _ => fallback
  end.

(** A request for a third bookmaker, and one that reuses a name. *)
Definition new_bookmaker_request : BookMakerBody.t :=
  {| BookMakerBody.name := Some "Tote";
     BookMakerBody.type := Some "regular";
     BookMakerBody.comission := Num 2.5;
     BookMakerBody.info := None;
     BookMakerBody.initialBalance := Num 25 |}.

(** A request that sets the commission of a bookmaker and nothing else. *)
Definition commission_request : BookMakerBody.t :=
  {| BookMakerBody.name := None;
     BookMakerBody.type := None;
     BookMakerBody.comission := Num 6.5;
     BookMakerBody.info := None;
     BookMakerBody.initialBalance := Undefined |}.

(** A deposit of 30 with the bookie on day 50. *)
Definition deposit_request : TransactionBody.t :=
  {| TransactionBody.idBookMaker := Some 2%Z;
     TransactionBody.type := Some "deposit";
     TransactionBody.amount := Num 30;
     TransactionBody.date := Some 50%Z;
     TransactionBody.info := None |}.

(** A freebet of 10 received from the exchange. *)
Definition sample_freebet : Freebet.t :=
  {| Freebet.id := 1;
     Freebet.idBookMaker := 1;
     Freebet.date := 12;
     Freebet.type := "loyalty";
     Freebet.amount := Num 10;
     Freebet.event := "Final";
     Freebet.bet := None;
     Freebet.requirements := None;
     Freebet.status := "received" |}.

(** A request that sets the amount of a freebet to 0 and nothing else. *)
Definition zero_amount_request : FreebetBody.t :=
  {| FreebetBody.idBookMaker := None;
     FreebetBody.type := None;
     FreebetBody.amount := Num 0;
     FreebetBody.date := None;
     FreebetBody.event := None;
     FreebetBody.bet := None;
     FreebetBody.requirements := None;
     FreebetBody.status := None |}.

(** A database with a bookmaker that has neither bets nor transactions. *)
Definition idle_bookmaker : BookMaker.t :=
  {| BookMaker.id := 3;
     BookMaker.name := "Tote";
     BookMaker.type := "regular";
     BookMaker.comission := 2.5;
     BookMaker.initialBalance := 25.004;
     BookMaker.info := None |}.

Definition idle_db : database :=
  {| bookMakers := [exchange; bookie; idle_bookmaker];
     bets := [won_back_bet; pending_lay_bet];
     transactions := sample_transactions |}.

(** The pending lay bet again, its stake sent as the string ['20'], and the
    same request for a back bet. *)
Definition string_stake_lay_request : BetBody.t :=
  {| BetBody.idBookMaker := Some 2%Z;
     BetBody.bank := Some "real";
     BetBody.betType := Some "layBet";
     BetBody.betDate := Some 30%Z;
     BetBody.eventDate := Some 31%Z;
     BetBody.event := Some "Derby";
     BetBody.bet := Some "Draw";
     BetBody.stake := Other true 20;
     BetBody.odds := Num 3;
     BetBody.status := Some "pending";
     BetBody.info := None |}.

Definition string_stake_back_request : BetBody.t :=
  {| BetBody.idBookMaker := Some 2%Z;
     BetBody.bank := Some "real";
     BetBody.betType := Some "backBet";
     BetBody.betDate := Some 30%Z;
     BetBody.eventDate := Some 31%Z;
     BetBody.event := Some "Derby";
     BetBody.bet := Some "Draw";
     BetBody.stake := Other true 20;
     BetBody.odds := Num 3;
     BetBody.status := Some "pending";
     BetBody.info := None |}.

(** * Properties *)

(** ** Settlement calculator *)

Lemma hundredths_nearest (m : positive) (e : Z) :
  nearest_hundredth m e (hundredths m e).
Proof.
  unfold nearest_hundredth, hundredths.
  destruct e as [|p|p].
  - cbn [Z.opp Z.max Z.pow]. simpl Z.max. change (2 ^ 0)%Z with 1%Z. lia.
  - replace (Z.max 0 (- Z.pos p)) with 0%Z by lia.
    replace (Z.max 0 (Z.pos p)) with (Z.pos p) by lia.
    change (2 ^ 0)%Z with 1%Z. lia.
  - replace (Z.max 0 (- Z.neg p)) with (Z.pos p) by lia.
    replace (Z.max 0 (Z.neg p)) with 0%Z by lia.
    change (2 ^ 0)%Z with 1%Z.
    assert (Hd : (0 < 2 ^ Z.pos p)%Z) by (apply Z.pow_pos_nonneg; lia).
    rewrite Z.pow_add_r by lia. change (2 ^ 1)%Z with 2%Z.
    set (d := (2 ^ Z.pos p)%Z) in *.
    set (a := (200 * Z.pos m + d)%Z).
    pose proof (Z.div_mod a (d * 2) ltac:(lia)) as Hdm.
    pose proof (Z.mod_pos_bound a (d * 2) ltac:(lia)) as Hb.
    nia.
Qed.

(** C2: [calculateLiability] is 0 unless the bet is pending; pending, it is
    stake×(odds−1) rounded to 2 decimals for a lay bet, 0 for a free bet and
    the stake rounded to 2 decimals for every other bet type;
    calculateLiability('pending','layBet',100,2.5) = 150.00. *)
Theorem calculateLiability_contract
    (status betType : string) (stake odds : float) :
  (status <> "pending" ->
     calculateLiability (Some status) (Some betType) (Num stake) (Num odds)
     = Normal 0)
  /\ calculateLiability (Some "pending") (Some "layBet") (Num stake) (Num odds)
     = Normal (round2 (stake * (odds - 1)))
  /\ calculateLiability (Some "pending") (Some "freeBet") (Num stake) (Num odds)
     = Normal 0
  /\ (betType <> "layBet" -> betType <> "freeBet" ->
      calculateLiability (Some "pending") (Some betType) (Num stake) (Num odds)
      = Normal (round2 stake))
  /\ calculateLiability (Some "pending") (Some "layBet") (Num 100) (Num 2.5)
     = Normal 150.
Proof.
  repeat split.
  - intros Hs. unfold calculateLiability, strict_eq.
    apply String.eqb_neq in Hs. now rewrite Hs.
  - intros Hlay Hfree. unfold calculateLiability, switch_betType, strict_eq.
    apply String.eqb_neq in Hlay, Hfree. cbn [String.eqb negb].
    rewrite Hlay, Hfree. simpl.
    now destruct (String.eqb betType "backBet").
Qed.

Lemma calculateLiability_contract_witness :
  calculateLiability (Some "won") (Some "layBet") (Num 100) (Num 2.5) = Normal 0
  /\ calculateLiability (Some "pending") (Some "mugBet") (Num 100) (Num 2.5)
     = Normal (round2 100).
Proof.
  destruct (calculateLiability_contract "won" "layBet" 100 2.5)
    as (Hsettled & _).
  destruct (calculateLiability_contract "pending" "mugBet" 100 2.5)
    as (_ & _ & _ & Hother & _).
  split.
  - apply Hsettled. discriminate.
  - apply Hother; discriminate.
Defined.

(** C1, as the code has it: 0 while pending; won, the profit minus the
    commission on it, rounded to 2 decimals, the profit being stake×(odds−1)
    for backBet, mugBet, personal, other and freeBet and the stake for
    layBet; lost, minus the stake rounded to 2 decimals for backBet, mugBet,
    personal and other, minus the liability rounded to 2 decimals for layBet
    and 0 for freeBet; with the four worked values of the specification. *)
Theorem calculateResult_table
    (betType : string) (stake odds liability commissionPercent : float) :
  let profit := stake * (odds - 1) in
  let net p := round2 (p - calculateCommission (Num p) (Num commissionPercent)) in
  let run status bt :=
    calculateResult (Some status) (Some bt) (Num stake) (Num odds)
                    (Num liability) (Num commissionPercent) in
  run "pending" betType = Normal 0
  /\ (run "won" "backBet" = Normal (net profit)
      /\ run "won" "mugBet" = Normal (net profit)
      /\ run "won" "personal" = Normal (net profit)
      /\ run "won" "other" = Normal (net profit)
      /\ run "won" "freeBet" = Normal (net profit))
  /\ run "won" "layBet" = Normal (net stake)
  /\ (run "lost" "backBet" = Normal (- round2 stake)
      /\ run "lost" "mugBet" = Normal (- round2 stake)
      /\ run "lost" "personal" = Normal (- round2 stake)
      /\ run "lost" "other" = Normal (- round2 stake))
  /\ run "lost" "layBet" = Normal (- round2 liability)
  /\ run "lost" "freeBet" = Normal 0
  /\ (calculateResult (Some "won") (Some "backBet")
        (Num 100) (Num 2.5) (Num 0) (Num 5) = Normal 142.5
      /\ calculateResult (Some "lost") (Some "layBet")
           (Num 100) (Num 2.5) (Num 150) (Num 0) = Normal (-150)
      /\ calculateResult (Some "won") (Some "freeBet")
           (Num 50) (Num 3) (Num 0) (Num 0) = Normal 100
      /\ calculateResult (Some "lost") (Some "freeBet")
           (Num 50) (Num 3) (Num 0) (Num 0) = Normal 0).
Proof.
  cbv zeta. repeat apply conj; try reflexivity.
  all: vm_compute; reflexivity.
Qed.

(** C1 as written fails: a lost back bet of stake 0.125 yields −0.13, not
    −0.125. *)
Lemma calculateResult_lost_not_minus_stake :
  calculateResult (Some "lost") (Some "backBet")
    (Num 0.125) (Num 2) (Num 0) (Num 0) <> Normal (- 0.125).
Proof.
  assert (E : calculateResult (Some "lost") (Some "backBet")
                (Num 0.125) (Num 2) (Num 0) (Num 0) = Normal (- 0.13))
    by (vm_compute; reflexivity).
  rewrite E. float_differs.
Qed.

Lemma switch_betType_unknown (betType : string) :
  ~ In betType validTypes -> switch_betType (Some betType) = case_default.
Proof.
  intros Hn. unfold switch_betType, strict_eq.
  assert (Hback : String.eqb betType "backBet" = false)
    by (apply String.eqb_neq; intros ->; apply Hn; simpl; tauto).
  assert (Hlay : String.eqb betType "layBet" = false)
    by (apply String.eqb_neq; intros ->; apply Hn; simpl; tauto).
  assert (Hfree : String.eqb betType "freeBet" = false)
    by (apply String.eqb_neq; intros ->; apply Hn; simpl; tauto).
  now rewrite Hback, Hlay, Hfree.
Qed.

Lemma calculateLiability_total (status betType : option string)
    (stake odds : float) :
  exists v, calculateLiability status betType (Num stake) (Num odds) = Normal v.
Proof.
  unfold calculateLiability.
  destruct (negb (strict_eq status "pending")); [now eexists|].
  destruct (switch_betType betType); simpl; now eexists.
Qed.

Lemma calculateResult_total (status betType : option string)
    (stake odds liability commission : float) :
  exists v, calculateResult status betType (Num stake) (Num odds)
              (Num liability) (Num commission) = Normal v.
Proof.
  unfold calculateResult.
  destruct (strict_eq status "pending"); [now eexists|].
  destruct (switch_betType betType), (strict_eq status "won");
    simpl; now eexists.
Qed.

(** C8, as the code has it: whatever the status and the bet type, on numbers
    (NaN and the infinities included) [calculateLiability] and
    [calculateResult] always return; a
    bet type outside the six known values takes the default arm, which
    computes what the back-bet arm computes: the stake rounded to 2 decimals
    as liability while pending, stake×(odds−1) minus the commission, rounded,
    when won, and minus the rounded stake when lost. *)
Theorem unknown_betType_falls_back
    (status betType : string) (stake odds liability commissionPercent : float) :
  let profit := stake * (odds - 1) in
  let run st bt :=
    calculateResult (Some st) (Some bt) (Num stake) (Num odds)
                    (Num liability) (Num commissionPercent) in
  (forall st bt : option string,
      exists v, calculateLiability st bt (Num stake) (Num odds) = Normal v)
  /\ (forall st bt : option string,
        exists v, calculateResult st bt (Num stake) (Num odds)
                    (Num liability) (Num commissionPercent) = Normal v)
  /\ (~ In betType validTypes ->
      calculateLiability (Some "pending") (Some betType) (Num stake) (Num odds)
      = Normal (round2 stake)
      /\ run "won" betType
         = Normal (round2 (profit - calculateCommission (Num profit)
                                      (Num commissionPercent)))
      /\ run "lost" betType = Normal (- round2 stake)
      /\ run status betType = run status "backBet").
Proof.
  cbv zeta. split; [intros; apply calculateLiability_total|].
  split; [intros; apply calculateResult_total|].
  intros Hn. pose proof (switch_betType_unknown betType Hn) as Hsw.
  unfold calculateLiability, calculateResult.
  rewrite Hsw. repeat split.
Qed.

Lemma unknown_betType_falls_back_witness :
  calculateLiability (Some "pending") (Some "tennis") (Num 10) (Num 3)
  = Normal (round2 10)
  /\ calculateResult (Some "lost") (Some "tennis") (Num 10) (Num 3) (Num 0) (Num 5)
     = Normal (- round2 10).
Proof.
  destruct (unknown_betType_falls_back "lost" "tennis" 10 3 0 5)
    as (_ & _ & Hfallback).
  destruct Hfallback as (Hliability & _ & Hlost & _).
  - simpl. intros H. repeat destruct H as [H|H]; try discriminate H. exact H.
  - split; [exact Hliability | exact Hlost].
Defined.

(** C8 as written fails: the call [updateBet] makes for a body that holds
    only [status: 'pending'] throws, and a lost bet of an unknown type and
    stake 0.125 yields −0.13, not −0.125. *)
Lemma calculator_raises_and_rounds :
  calculateLiability (Some "pending") None Undefined Undefined
  = Throw (TypeError "Cannot read properties of undefined (reading 'toFixed')")
  /\ calculateResult (Some "lost") (Some "tennis")
       (Num 0.125) (Num 2) (Num 0) (Num 0) <> Normal (- 0.125).
Proof.
  split; [reflexivity|].
  assert (E : calculateResult (Some "lost") (Some "tennis")
                (Num 0.125) (Num 2) (Num 0) (Num 0) = Normal (- 0.13))
    by (vm_compute; reflexivity).
  rewrite E. float_differs.
Qed.

(** ** Rounding *)

Lemma calculateLiability_rounded (status betType : option string)
    (stake odds : value) (v : float) :
  calculateLiability status betType stake odds = Normal v -> rounded_output v.
Proof.
  unfold calculateLiability, rounded_output.
  destruct (negb (strict_eq status "pending")).
  - intros [= <-]. now left.
  - destruct (switch_betType betType), stake as [[| |x]|t n]; simpl;
      intros [= <-];
      solve [ now left | right; eexists; left; reflexivity ].
Qed.

Lemma calculateResult_rounded (status betType : option string)
    (stake odds liability commission : value) (v : float) :
  calculateResult status betType stake odds liability commission = Normal v ->
  rounded_output v.
Proof.
  unfold calculateResult, rounded_output.
  destruct (strict_eq status "pending").
  - intros [= <-]. now left.
  - destruct (switch_betType betType), (strict_eq status "won");
      try (intros [= <-];
           solve [ now left | right; eexists; left; reflexivity ]).
    all: try (destruct stake as [[| |x]|t n]; simpl; intros [= <-];
              right; eexists; right; reflexivity).
    all: destruct liability as [[| |x]|t n]; simpl; intros [= <-];
      right; eexists; right; reflexivity.
Qed.

(** C6, as the code has it: [calculateCommission] is
    [Number((profit * (commission / 100)).toFixed(2))] in binary64
    arithmetic; [toFixed(2)] takes a finite number below 1e21 to the
    hundredth nearest to its exact binary value, the larger magnitude when
    two are as near; and every value the calculator returns is 0 or went
    through that rounding where it was computed. *)
Theorem rounding_at_computation :
  (forall profit commission : numeric,
      calculateCommission profit commission
      = round2 (ToNumber profit * (ToNumber commission / 100)))
  /\ (forall (x : float) (s : bool) (m : positive) (e : Z),
        Prim2SF x = S754_finite s m e ->
        (1e21 <=? abs x) = false ->
        exists n : Z,
          toFixed2 x = StrDecimal s n
          /\ round2 x = Number (StrDecimal s n)
          /\ nearest_hundredth m e n)
  /\ (forall status betType stake odds v,
        calculateLiability status betType stake odds = Normal v ->
        rounded_output v)
  /\ (forall status betType stake odds liability commission v,
        calculateResult status betType stake odds liability commission
        = Normal v ->
        rounded_output v).
Proof.
  split; [reflexivity|]. split.
  - intros x s m e Hx Hsmall. exists (hundredths m e).
    unfold round2, toFixed2. rewrite Hx, Hsmall.
    split; [reflexivity|]. split; [reflexivity|]. apply hundredths_nearest.
  - split.
    + intros. eapply calculateLiability_rounded; eassumption.
    + intros. eapply calculateResult_rounded; eassumption.
Qed.

Lemma rounding_at_computation_witness :
  (exists n : Z, toFixed2 0.125 = StrDecimal false n
                 /\ round2 0.125 = Number (StrDecimal false n)
                 /\ nearest_hundredth 4503599627370496 (-55) n)
  /\ rounded_output 150
  /\ rounded_output 142.5.
Proof.
  destruct rounding_at_computation as (_ & Hfixed & Hliability & Hresult).
  split; [|split].
  - apply (Hfixed 0.125 false 4503599627370496%positive (-55)%Z);
      vm_compute; reflexivity.
  - apply (Hliability (Some "pending") (Some "layBet") (Num 100) (Num 2.5)).
    vm_compute; reflexivity.
  - apply (Hresult (Some "won") (Some "backBet")
                   (Num 100) (Num 2.5) (Num 0) (Num 5)).
    vm_compute; reflexivity.
Defined.

(** C6 as written fails: the commission of 3 percent on a profit of 0.5 is
    0.015, which half-up rounding takes to 0.02; in binary64 the product
    [0.5 * (3 / 100)] lies below 0.015 and the code returns 0.01. *)
Lemma calculateCommission_not_half_up :
  spec_commission_hundredths (exact_value 0.5) (exact_value 3) = 2%Z
  /\ (exact_value (0.5 * (3 / 100)) < 15 # 1000)%Q
  /\ toFixed2 (0.5 * (3 / 100)) = StrDecimal false 1
  /\ calculateCommission (Num 0.5) (Num 3) = 0.01
  /\ calculateCommission (Num 0.5) (Num 3)
     <> Number (StrDecimal false
                  (spec_commission_hundredths (exact_value 0.5) (exact_value 3))).
Proof.
  split; [vm_compute; reflexivity|].
  split; [vm_compute; reflexivity|].
  split; [vm_compute; reflexivity|].
  split; [vm_compute; reflexivity|].
  float_differs.
Qed.

(** ** Binary64 facts the aggregates rest on *)

Lemma same_amount_SF (x y : float) :
  same_amount x y <-> SFsame (Prim2SF x) (Prim2SF y).
Proof.
  unfold same_amount, SFsame. split.
  - intros [->|H]; [now left | now right].
  - intros [H|H]; [left; now apply Prim2SF_inj | now right].
Qed.

Lemma same_amount_refl (x : float) : same_amount x x.
Proof. now left. Qed.

Lemma same_amount_sym (x y : float) : same_amount x y -> same_amount y x.
Proof. intros [->|[H1 H2]]; [now left | now right]. Qed.

Lemma same_amount_trans (x y z : float) :
  same_amount x y -> same_amount y z -> same_amount x z.
Proof.
  intros [->|[H1 H2]] [->|[H3 H4]]; try (now left); now right.
Qed.

Lemma SFadd_same (a a' b b' : spec_float) :
  SFsame a a' -> SFsame b b' -> SFsame (SF64add a b) (SF64add a' b').
Proof.
  intros [->|[Ha Ha']] [->|[Hb Hb']].
  - now left.
  - destruct b as [sb| | |], b' as [sb'| | |]; try discriminate.
    destruct a' as [[]|[]| |]; destruct sb, sb'; cbn;
      solve [ now left | right; now split ].
  - destruct a as [sa| | |], a' as [sa'| | |]; try discriminate.
    destruct b' as [[]|[]| |]; destruct sa, sa'; cbn;
      solve [ now left | right; now split ].
  - destruct a as [[]| | |], a' as [[]| | |], b as [[]| | |], b' as [[]| | |];
      try discriminate; cbn; solve [ now left | right; now split ].
Qed.

Lemma SFsub_same (a a' b b' : spec_float) :
  SFsame a a' -> SFsame b b' -> SFsame (SF64sub a b) (SF64sub a' b').
Proof.
  intros [->|[Ha Ha']] [->|[Hb Hb']].
  - now left.
  - destruct b as [sb| | |], b' as [sb'| | |]; try discriminate.
    destruct a' as [[]|[]| |]; destruct sb, sb'; cbn;
      solve [ now left | right; now split ].
  - destruct a as [sa| | |], a' as [sa'| | |]; try discriminate.
    destruct b' as [[]|[]| |]; destruct sa, sa'; cbn;
      solve [ now left | right; now split ].
  - destruct a as [[]| | |], a' as [[]| | |], b as [[]| | |], b' as [[]| | |];
      try discriminate; cbn; solve [ now left | right; now split ].
Qed.

Lemma add_same (x x' y y' : float) :
  same_amount x x' -> same_amount y y' -> same_amount (x + y) (x' + y').
Proof.
  rewrite !same_amount_SF, !add_spec. apply SFadd_same.
Qed.

Lemma sub_same (x x' y y' : float) :
  same_amount x x' -> same_amount y y' -> same_amount (x - y) (x' - y').
Proof.
  rewrite !same_amount_SF, !sub_spec. apply SFsub_same.
Qed.

Lemma add_zero_r (x : float) : same_amount (x + 0) x.
Proof.
  rewrite same_amount_SF, add_spec.
  change (Prim2SF 0) with (S754_zero false).
  destruct (Prim2SF x) as [[]|[]| |]; cbn;
    solve [ now left | right; now split ].
Qed.

Lemma add_zero_l (y : float) : same_amount (0 + y) y.
Proof.
  rewrite same_amount_SF, add_spec.
  change (Prim2SF 0) with (S754_zero false).
  destruct (Prim2SF y) as [[]|[]| |]; cbn;
    solve [ now left | right; now split ].
Qed.

Lemma round2_same (x y : float) : same_amount x y -> round2 x = round2 y.
Proof.
  intros [->|[Hx Hy]]; [reflexivity|].
  unfold round2, toFixed2.
  destruct (Prim2SF x), (Prim2SF y); try discriminate. reflexivity.
Qed.

Lemma SFeqb_refl_finite (s : bool) (m : positive) (e : Z) :
  SFeqb (S754_finite s m e) (S754_finite s m e) = true.
Proof.
  unfold SFeqb, SFcompare.
  rewrite Z.compare_refl, Pos.compare_cont_refl. now destruct s.
Qed.

Lemma truthy_number_spec (x : float) :
  truthy_number x
  = match Prim2SF x with
    | S754_zero _ | S754_nan => false
    | _ => true
    end.
Proof.
  unfold truthy_number, is_nan, is_zero. rewrite !eqb_spec.
  change (Prim2SF zero) with (S754_zero false).
  destruct (Prim2SF x) as [[]|[]| |s m e] eqn:E; try reflexivity.
  rewrite SFeqb_refl_finite. now destruct s.
Qed.

Lemma is_nan_spec (x : float) :
  is_nan x = match Prim2SF x with S754_nan => true | _ => false end.
Proof.
  unfold is_nan. rewrite eqb_spec.
  destruct (Prim2SF x) as [[]|[]| |s m e]; try reflexivity.
  now rewrite SFeqb_refl_finite.
Qed.

(** [s || 0] agrees with [s] unless [s] is NaN. *)
Lemma or_else_same (s t : float) :
  same_amount s t -> is_nan t = false ->
  same_amount (or_else (Num s) 0) t.
Proof.
  intros Hst Hnan. unfold or_else. rewrite truthy_number_spec.
  rewrite is_nan_spec in Hnan.
  destruct (Prim2SF s) as [ss|ss| |ss ms es] eqn:Es; try assumption.
  - (* a zero *)
    destruct Hst as [<-|[_ Ht]].
    + right. now rewrite Es.
    + right. now split.
  - (* NaN *)
    destruct Hst as [<-|[Hs _]].
    + now rewrite Es in Hnan.
    + now rewrite Es in Hs.
Qed.

(** *** Sums of finite amounts are never NaN *)

Lemma shr_1_nonneg (mrs : shr_record) :
  (0 <= shr_m mrs)%Z -> (0 <= shr_m (shr_1 mrs))%Z.
Proof.
  destruct mrs as [m r s]. simpl.
  destruct m as [|[p|p|]|[p|p|]]; simpl; lia.
Qed.

Lemma iter_pos_shr_1_nonneg (p : positive) (mrs : shr_record) :
  (0 <= shr_m mrs)%Z -> (0 <= shr_m (iter_pos shr_1 p mrs))%Z.
Proof.
  revert mrs. induction p as [p IH|p IH|]; intros mrs H; simpl.
  - apply IH, IH, shr_1_nonneg, H.
  - apply IH, IH, H.
  - apply shr_1_nonneg, H.
Qed.

Lemma shr_fexp_nonneg (m e : Z) (l : location) :
  (0 <= m)%Z -> (0 <= shr_m (fst (shr_fexp prec emax m e l)))%Z.
Proof.
  intros Hm. unfold shr_fexp, shr.
  assert (H0 : (0 <= shr_m (shr_record_of_loc m l))%Z)
    by (destruct l as [|[]]; exact Hm).
  destruct (fexp prec emax (Zdigits2 m + e) - e)%Z; simpl; try exact H0.
  now apply iter_pos_shr_1_nonneg.
Qed.

Lemma round_nearest_even_nonneg (m : Z) (l : location) :
  (0 <= m)%Z -> (0 <= round_nearest_even m l)%Z.
Proof.
  intros Hm. unfold round_nearest_even.
  destruct l as [|[]]; try exact Hm; [destruct (Z.even m)|]; lia.
Qed.

Lemma binary_round_aux_not_nan (sx : bool) (mx ex : Z) (lx : location) :
  (0 <= mx)%Z -> binary_round_aux prec emax sx mx ex lx <> S754_nan.
Proof.
  intros Hm. unfold binary_round_aux.
  pose proof (shr_fexp_nonneg mx ex lx Hm) as H1.
  destruct (shr_fexp prec emax mx ex lx) as [mrs' e']. simpl in H1.
  pose proof (shr_fexp_nonneg
                (round_nearest_even (shr_m mrs') (loc_of_shr_record mrs'))
                e' loc_Exact
                (round_nearest_even_nonneg _ _ H1)) as H2.
  destruct (shr_fexp prec emax
              (round_nearest_even (shr_m mrs') (loc_of_shr_record mrs'))
              e' loc_Exact) as [mrs'' e'']. simpl in H2.
  destruct (shr_m mrs'') as [|m|m]; try discriminate.
  - destruct (e'' <=? emax - prec)%Z; discriminate.
  - lia.
Qed.

Lemma binary_normalize_not_nan (m e : Z) (szero : bool) :
  binary_normalize prec emax m e szero <> S754_nan.
Proof.
  unfold binary_normalize, binary_round.
  destruct m as [|p|p]; try discriminate.
  - destruct (shl_align p e (fexp prec emax (Z.pos (digits2_pos p) + e)))
      as [mz ez].
    apply binary_round_aux_not_nan. lia.
  - destruct (shl_align p e (fexp prec emax (Z.pos (digits2_pos p) + e)))
      as [mz ez].
    apply binary_round_aux_not_nan. lia.
Qed.

Lemma add_finite_not_nan (acc x : float) :
  is_nan acc = false -> finite_amount x -> is_nan (acc + x) = false.
Proof.
  rewrite !is_nan_spec, add_spec. unfold finite_amount.
  destruct (Prim2SF acc) as [sa|sa| |sa ma ea], (Prim2SF x) as [sb|sb| |sb mb eb];
    try discriminate; try tauto; intros _ _;
    try reflexivity; try (now destruct sa, sb).
  unfold SF64add, SFadd.
  pose proof (binary_normalize_not_nan
                (cond_Zopp sa (Z.pos (fst (shl_align ma ea (Z.min ea eb))))
                 + cond_Zopp sb (Z.pos (fst (shl_align mb eb (Z.min ea eb)))))
                (Z.min ea eb) false) as Hn.
  destruct (binary_normalize prec emax
              (cond_Zopp sa (Z.pos (fst (shl_align ma ea (Z.min ea eb))))
               + cond_Zopp sb (Z.pos (fst (shl_align mb eb (Z.min ea eb)))))
              (Z.min ea eb) false); try reflexivity.
  now elim Hn.
Qed.

Lemma total_not_nan (amounts : list float) :
  (forall x, In x amounts -> finite_amount x) ->
  is_nan (total amounts) = false.
Proof.
  unfold total.
  assert (H0 : is_nan 0 = false) by reflexivity.
  revert H0. generalize 0. induction amounts as [|x amounts IH];
    intros acc Hacc Hfin; simpl.
  - exact Hacc.
  - apply IH.
    + apply add_finite_not_nan; [exact Hacc | apply Hfin; now left].
    + intros y Hy. apply Hfin. now right.
Qed.

Lemma total_column_not_nan {A : Type} (p : A -> bool) (f : A -> float)
    (rows : list A) :
  (forall r, In r rows -> finite_amount (f r)) ->
  is_nan (total (map f (filter p rows))) = false.
Proof.
  intros Hfin. apply total_not_nan. intros x Hx.
  apply in_map_iff in Hx. destruct Hx as (r & <- & Hr).
  apply Hfin. now apply filter_In in Hr.
Qed.

(** ** SQL sums against plain totals *)

Lemma fold_case_same {A : Type} (p : A -> bool) (f : A -> float)
    (rows : list A) (accS accT : float) :
  same_amount accS accT ->
  same_amount
    (fold_left add (map (fun r => case_when (p r) (f r)) rows) accS)
    (fold_left add (map f (filter p rows)) accT).
Proof.
  revert accS accT. induction rows as [|r rows IH]; intros accS accT Hacc.
  - exact Hacc.
  - simpl. unfold case_when at 2. destruct (p r); simpl.
    + apply IH. apply add_same; [exact Hacc | apply same_amount_refl].
    + apply IH. eapply same_amount_trans; [apply add_zero_r | exact Hacc].
Qed.

Lemma sql_sum_case_same {A : Type} (p : A -> bool) (f : A -> float)
    (rows : list A) :
  is_nan (total (map f (filter p rows))) = false ->
  same_amount
    (or_else (sql_sum (map (fun r => case_when (p r) (f r)) rows)) 0)
    (total (map f (filter p rows))).
Proof.
  destruct rows as [|r rows]; intros Hnan.
  - apply same_amount_refl.
  - apply or_else_same; [|exact Hnan].
    unfold total. simpl. unfold case_when at 2. destruct (p r); simpl.
    + apply fold_case_same. apply same_amount_sym, add_zero_l.
    + apply fold_case_same. apply same_amount_refl.
Qed.

Lemma results_as_case (rows : list Bet.t) :
  pending_results_zero rows ->
  map Bet.result rows
  = map (fun b => case_when (is_settled b) (Bet.result b)) rows.
Proof.
  intros Hinv. apply map_ext_in. intros b Hb.
  unfold case_when, is_settled.
  destruct (is_pending b) eqn:Hp; [|reflexivity].
  simpl. now apply Hinv.
Qed.

(** ** Bookmaker balance *)

Lemma pending_results_zero_filter (f : Bet.t -> bool) (rows : list Bet.t) :
  pending_results_zero rows -> pending_results_zero (filter f rows).
Proof.
  intros H b Hb. apply H. now apply filter_In in Hb.
Qed.

(** C3, as the code has it: when the stored amounts are finite and the
    pending bets carry the result 0, the balance the query reports is
    initialBalance + Σdeposits − Σwithdrawals + Σresult(settled bets)
    − Σliability(pending bets), rounded to 2 decimals. *)
Theorem getBookMakerBalance_formula
    (db : database) (id : Z) (bookMaker : BookMaker.t) :
  let transactions := transactions_of db id in
  let bets := bets_of db id in
  select_bookMaker db id = Some bookMaker ->
  pending_results_zero bets ->
  finite_rows transactions bets ->
  exists report,
    getBookMakerBalance db id = Json 200 report
    /\ BalanceReport.balance report
       = round2 (spec_balance (BookMaker.initialBalance bookMaker)
                              transactions bets).
Proof.
  intros transactions bets Hbm Hinv (Htx & Hbets).
  unfold getBookMakerBalance. rewrite Hbm.
  eexists. split; [reflexivity|]. cbn [BalanceReport.balance].
  apply round2_same. unfold spec_balance.
  fold transactions bets.
  apply sub_same; [apply add_same; [apply sub_same; [apply add_same|]|]|].
  - apply same_amount_refl.
  - apply (sql_sum_case_same is_deposit Transaction.amount).
    now apply total_column_not_nan.
  - apply (sql_sum_case_same is_withdrawal Transaction.amount).
    now apply total_column_not_nan.
  - rewrite (results_as_case bets Hinv).
    apply (sql_sum_case_same is_settled Bet.result).
    apply total_column_not_nan. intros b Hb. now apply Hbets.
  - apply (sql_sum_case_same is_pending Bet.liability).
    apply total_column_not_nan. intros b Hb. now apply Hbets.
Qed.

Lemma getBookMakerBalance_formula_witness :
  exists report,
    getBookMakerBalance sample_db 1 = Json 200 report
    /\ BalanceReport.balance report
       = round2 (spec_balance (BookMaker.initialBalance exchange)
                              (transactions_of sample_db 1)
                              (bets_of sample_db 1)).
Proof.
  apply (getBookMakerBalance_formula sample_db 1 exchange).
  - reflexivity.
  - intros b [<-|[]]. simpl. intros H. discriminate H.
  - split.
    + intros t [<-|[<-|[<-|[]]]]; exact I.
    + intros b [<-|[]]. split; exact I.
Defined.

(** C3 as written fails: the exchange holds 100.125 initially, deposits of
    50 and 10, a withdrawal of 20 and a settled result of 150; the formula
    gives 290.125 and the query reports 290.13. *)
Lemma getBookMakerBalance_not_exact :
  exists report,
    getBookMakerBalance sample_db 1 = Json 200 report
    /\ spec_balance (BookMaker.initialBalance exchange)
                    (transactions_of sample_db 1) (bets_of sample_db 1)
       = 290.125
    /\ BalanceReport.balance report = 290.13
    /\ BalanceReport.balance report
       <> spec_balance (BookMaker.initialBalance exchange)
                       (transactions_of sample_db 1) (bets_of sample_db 1).
Proof.
  eexists.
  split; [vm_compute; reflexivity|].
  split; [vm_compute; reflexivity|].
  split; [reflexivity|].
  float_differs.
Qed.

(** ** The balance of a period *)

Lemma round2_zero : round2 0 = 0.
Proof. reflexivity. Qed.

Lemma sample_db_pending_results_zero : pending_results_zero (bets sample_db).
Proof.
  intros b [<-|[<-|[]]]; [discriminate | reflexivity].
Qed.

Lemma sample_db_unique_names : unique_names sample_db.
Proof.
  unfold unique_names. simpl.
  repeat constructor; simpl; intuition discriminate.
Qed.

(** C5 on the code: [getBalanceByPeriod] answers 500 for every database and
    every window, whatever the rest of the handler would do with the rows.
    Its first statement reads [type] without a table over
    [transactions JOIN bookMakers]; both tables have that column, so the
    engine refuses the statement as ambiguous and no report is produced.
    The statement of [getTransactionStats], which computes the same sums
    over the same join, reads [t.type] and is accepted. *)
Theorem getBalanceByPeriod_refused :
  resolve [transactions_columns; bookMakers_columns] "type" = Ambiguous
  /\ statement_error [transactions_columns; bookMakers_columns]
                     transactionsSql_columns
     = Some "Column 'type' in field list is ambiguous"
  /\ statement_error [transactions_columns; bookMakers_columns]
                     transactionStats_columns = None
  /\ statement_error [bets_columns; bookMakers_columns] betsSql_columns = None
  /\ forall (Report : Type)
            (on_rows : database -> date -> date -> response Report)
            (db : database) (startDate endDate : date),
       getBalanceByPeriod on_rows db startDate endDate
       = Message 500 "Error al obtener el balance".
Proof.
  repeat split.
Qed.

(** ** Aggregate ratios *)

Lemma winRate_no_resolved_bets (stat : BetStat.t) :
  BetStat.wonBets stat = 0 -> BetStat.lostBets stat = 0 ->
  EnhancedStat.winRate (enhance_stat stat) = 0.
Proof.
  intros Hwon Hlost. unfold enhance_stat. simpl. rewrite Hwon, Hlost.
  reflexivity.
Qed.

Lemma roi_nothing_staked_nothing_won (stat : BetStat.t) :
  BetStat.totalStaked stat = 0 -> BetStat.totalResult stat = 0 ->
  EnhancedStat.roi (enhance_stat stat) = 0.
Proof.
  intros Hstaked Hresult. unfold enhance_stat. simpl.
  rewrite Hstaked, Hresult. reflexivity.
Qed.

Lemma roi_nothing_staked_some_result :
  EnhancedStat.roi
    (enhance_stat
       {| BetStat.bookMakerName := "Bookie";
          BetStat.totalBets := 2;
          BetStat.wonBets := 1;
          BetStat.lostBets := 1;
          BetStat.pendingBets := 0;
          BetStat.totalStaked := 0;
          BetStat.totalResult := 10;
          BetStat.totalLiability := 0;
          BetStat.firstBet := 15;
          BetStat.lastBet := 16 |}) = infinity.
Proof. reflexivity. Qed.

Lemma conversionRate_zero_amount (s : FreebetStat.t) :
  FreebetStat.totalFreebetAmount s = Num 0 ->
  FreebetStat.totalProfit s = Null ->
  EnrichedFreebetStat.conversionRate (enrich_freebet_stat s) = nan.
Proof.
  intros Hamount Hprofit. unfold enrich_freebet_stat. simpl.
  rewrite Hamount, Hprofit. reflexivity.
Qed.

(** C4 on the code: the win rate of a bookmaker with no resolved bet is 0,
    but the conversion rate of a bookmaker whose freebets total 0 is NaN and
    so is the overall conversion rate: [|| 0] is applied to the string
    [toFixed] returned, which is never falsy, and the overall rate has no
    guard. *)
Theorem conversion_rate_of_zero_amount_is_NaN :
  EnhancedStat.winRate (enhance_stat only_pending_bets) = 0
  /\ exists report entry,
       getFreebetConversionRate [zero_amount_freebets] = Json 200 report
       /\ ConversionReport.byBookMaker report = [entry]
       /\ EnrichedFreebetStat.totalFreebetAmount entry = 0
       /\ EnrichedFreebetStat.conversionRate entry = nan
       /\ FreebetTotals.totalAmount (ConversionReport.totals report) = 0
       /\ ConversionReport.overallConversionRate report = nan.
Proof.
  split; [reflexivity|].
  eexists. eexists.
  split; [vm_compute; reflexivity|].
  repeat split.
Qed.

(** ** [createBet] *)

Lemma commission_property_undefined (bookMaker : BookMaker.t) :
  BookMaker.number_property bookMaker "commission" = Undefined.
Proof. reflexivity. Qed.




(** ** [updateBet] *)

Lemma updateBet_recompute_throws (status betType : option string)
    (stake odds : value) :
  exists e,
    (liability <- calculateLiability status betType stake odds ;;
     commission <- unbound_identifier "bookMaker" ;;
     result <- calculateResult status betType stake odds
                 (Num liability) commission ;;
     Normal (liability, result)) = Throw e.
Proof.
  destruct (calculateLiability status betType stake odds) as [l|e];
    simpl; eexists; reflexivity.
Qed.

(** No call of [updateBet] writes: each ends in an error response with the
    database as it was. *)
Lemma updateBet_never_writes (db : database) (id : Z) (body : BetBody.t) :
  exists code message,
    updateBet db id body = (Message code message, db)
    /\ (code = 400 \/ code = 404 \/ code = 500)%Z.
Proof.
  unfold updateBet.
  destruct (select_bet db id) as [existingBet|];
    [|do 2 eexists; split; [reflexivity|tauto]].
  repeat match goal with
         | |- context [if ?c then (Message _ _, db) else _] =>
             destruct c; [do 2 eexists; split; [reflexivity|tauto]|]
         end.
  cbv zeta.
  destruct (updateBet_recompute_throws (BetBody.status body)
              (BetBody.betType body) (BetBody.stake body) (BetBody.odds body))
    as (e & ->).
  do 2 eexists; split; [reflexivity|tauto].
Qed.

(** C9: an [updateBet] on an existing bet whose body omits [idBookMaker]
    never succeeds and leaves the database as it was: it answers 400 when a
    supplied bank, bet type or status is invalid and otherwise 500, the
    recomputation having thrown before the [UPDATE]. *)
Theorem updateBet_without_idBookMaker_fails
    (db : database) (id : Z) (body : BetBody.t) (existingBet : Bet.t) :
  select_bet db id = Some existingBet ->
  BetBody.idBookMaker body = None ->
  exists code message,
    updateBet db id body = (Message code message, db)
    /\ (code = 400 \/ code = 500)%Z
    /\ select_bet (snd (updateBet db id body)) id = Some existingBet.
Proof.
  intros Hbet Hid. unfold updateBet. rewrite Hbet, Hid. simpl truthy_id.
  cbn [andb].
  repeat match goal with
         | |- context [if ?c then (Message _ _, db) else _] =>
             destruct c;
             [do 2 eexists; split; [reflexivity|split; [tauto|exact Hbet]]|]
         end.
  cbv zeta.
  destruct (updateBet_recompute_throws (BetBody.status body)
              (BetBody.betType body) (BetBody.stake body) (BetBody.odds body))
    as (e & ->).
  do 2 eexists; split; [reflexivity|split; [tauto|exact Hbet]].
Qed.

Lemma updateBet_without_idBookMaker_fails_witness :
  exists code message,
    updateBet sample_db 2 settle_request_no_bookmaker
    = (Message code message, sample_db)
    /\ (code = 400 \/ code = 500)%Z
    /\ select_bet (snd (updateBet sample_db 2 settle_request_no_bookmaker)) 2
       = Some pending_lay_bet.
Proof.
  apply (updateBet_without_idBookMaker_fails
           sample_db 2 settle_request_no_bookmaker pending_lay_bet);
    reflexivity.
Defined.

(** C7 on the code: settling the pending lay bet of 100 at 2.5 as won, with
    its bookmaker named in the body, should store liability 0 and result
    100; [updateBet] answers 500 and the bet keeps liability 150 and
    result 0. *)
Theorem updateBet_does_not_recompute :
  calculateLiability (Some "won") (Some "layBet") (Num 100) (Num 2.5)
  = Normal 0
  /\ calculateResult (Some "won") (Some "layBet") (Num 100) (Num 2.5)
       (Num 0) (Num (BookMaker.comission bookie)) = Normal 100
  /\ updateBet sample_db 2 settle_request
     = (Message 500 "Error al actualizar la apuesta", sample_db)
  /\ select_bet (snd (updateBet sample_db 2 settle_request)) 2
     = Some pending_lay_bet
  /\ Bet.liability pending_lay_bet = 150
  /\ Bet.result pending_lay_bet = 0.
Proof.
  repeat split; vm_compute; reflexivity.
Qed.

(** ** More on the rounding idiom *)

Lemma opp_involutive (x : float) : - - x = x.
Proof.
  apply Prim2SF_inj. rewrite !opp_spec.
  destruct (Prim2SF x); simpl; now rewrite ?negb_involutive.
Qed.

Lemma abs_opp (x : float) : abs (- x) = abs x.
Proof.
  apply Prim2SF_inj. rewrite !abs_spec, opp_spec.
  now destruct (Prim2SF x).
Qed.

Lemma SF2Prim_opp (f : spec_float) : SF2Prim (SFopp f) = - SF2Prim f.
Proof.
  destruct f as [[]|[]| |[] m e]; try reflexivity.
  - simpl. now rewrite opp_involutive.
Qed.

Lemma binary_round_aux_opp (s : bool) (m e : Z) (l : location) :
  binary_round_aux prec emax (negb s) m e l
  = SFopp (binary_round_aux prec emax s m e l).
Proof.
  unfold binary_round_aux.
  destruct (shr_fexp prec emax m e l) as [mrs' e'].
  destruct (shr_fexp prec emax
              (round_nearest_even (shr_m mrs') (loc_of_shr_record mrs'))
              e' loc_Exact) as [mrs'' e''].
  destruct (shr_m mrs''); try reflexivity.
  now destruct (e'' <=? emax - prec)%Z.
Qed.

Lemma Number_decimal_opp (s : bool) (n : Z) :
  Number (StrDecimal (negb s) n) = - Number (StrDecimal s n).
Proof.
  destruct n as [|p|p]; try (now destruct s).
  unfold Number, SFdiv.
  destruct (SFdiv_core_binary prec emax (Z.pos p) 0 100 0) as [[mz ez] lz].
  rewrite !xorb_false_r, binary_round_aux_opp. apply SF2Prim_opp.
Qed.

Lemma is_zero_spec (x : float) :
  is_zero x = is_SFzero (Prim2SF x).
Proof.
  unfold is_zero. rewrite eqb_spec.
  change (Prim2SF zero) with (S754_zero false).
  now destruct (Prim2SF x) as [[]|[]| |[] m e].
Qed.

(** X1: the rounding is symmetric about zero: for every number other than
    a zero, [Number((-x).toFixed(2))] is [-Number(x.toFixed(2))]; a
    half-cent of either sign goes away from zero. *)
Theorem round2_opp (x : float) :
  is_zero x = false -> round2 (- x) = - round2 x.
Proof.
  rewrite is_zero_spec. intros Hz.
  unfold round2, toFixed2. rewrite opp_spec, abs_opp.
  destruct (Prim2SF x) as [s|s| |s m e]; try discriminate.
  - now destruct s.
  - reflexivity.
  - cbn [SFopp]. destruct (1e21 <=? abs x); [reflexivity|].
    apply Number_decimal_opp.
Qed.

Lemma round2_opp_witness :
  round2 (opp 0.125) = opp (round2 0.125) /\ round2 (opp 0.125) = opp 0.13.
Proof.
  split; [apply (round2_opp 0.125)|]; reflexivity.
Defined.

(** *** Rounding never yields NaN from a number *)

Lemma SFldexp_not_nan (f : spec_float) (e : Z) :
  f <> S754_nan -> SFldexp prec emax f e <> S754_nan.
Proof.
  intros Hf. destruct f as [s|s| |s m ex]; try exact Hf.
  unfold SFldexp, binary_round.
  destruct (shl_align m (ex + e)
              (fexp prec emax (Z.pos (digits2_pos m) + (ex + e))))
    as [mz ez].
  apply binary_round_aux_not_nan. lia.
Qed.

Lemma SFopp_not_nan (f : spec_float) : f <> S754_nan -> SFopp f <> S754_nan.
Proof. now destruct f. Qed.

Lemma SF2Prim_not_nan (f : spec_float) :
  f <> S754_nan -> is_nan (SF2Prim f) = false.
Proof.
  intros Hf. rewrite is_nan_spec.
  destruct f as [[]|[]| |s m e]; try reflexivity; [now elim Hf|].
  unfold SF2Prim.
  assert (Hl : Prim2SF (Z.ldexp (of_uint63 (Uint63Axioms.of_Z (Z.pos m))) e)
               <> S754_nan).
  { rewrite Z_ldexp_spec, of_uint63_spec.
    apply SFldexp_not_nan, binary_normalize_not_nan. }
  destruct s.
  - rewrite opp_spec. apply SFopp_not_nan in Hl.
    now destruct (SFopp _).
  - now destruct (Prim2SF _).
Qed.

Lemma SFdiv_hundred_not_nan (s : bool) (p : positive) :
  SFdiv prec emax (S754_finite s p 0) (S754_finite false 100 0) <> S754_nan.
Proof.
  unfold SFdiv, SFdiv_core_binary.
  set (shift := (0 - 0 -
                 Z.min (fexp prec emax
                          (Zdigits2 (Z.pos p) + 0 - (Zdigits2 100 + 0)))
                       (0 - 0))%Z).
  set (m' := match shift with
             | Z.pos _ => Z.shiftl (Z.pos p) shift
             | 0%Z => Z.pos p
             | Z.neg _ => 0%Z
             end).
  assert (Hm' : (0 <= m')%Z).
  { subst m'. destruct shift; try lia. apply Z.shiftl_nonneg. lia. }
  destruct (Z.div_eucl m' 100) as [q r] eqn:Eq.
  assert (Hq : q = (m' / 100)%Z) by (unfold Z.div; now rewrite Eq).
  apply binary_round_aux_not_nan. subst q. apply Z.div_pos; lia.
Qed.

Lemma round2_not_nan (x : float) : is_nan x = false -> is_nan (round2 x) = false.
Proof.
  intros Hx. unfold round2, toFixed2.
  pose proof Hx as Hx'. rewrite is_nan_spec in Hx'.
  destruct (Prim2SF x) as [s|s| |s m e]; try discriminate.
  - reflexivity.
  - now destruct s.
  - destruct (1e21 <=? abs x); [exact Hx|].
    destruct (hundredths m e) as [|p|p]; try (now destruct s).
    apply SF2Prim_not_nan, SFdiv_hundred_not_nan.
Qed.

Lemma guarded_ratio_not_nan (x : float) :
  is_nan (round2 (or_else (Num x) 0)) = false.
Proof.
  apply round2_not_nan. unfold or_else.
  destruct (truthy_number x) eqn:E; [|reflexivity].
  unfold truthy_number in E. now destruct (is_nan x).
Qed.

(** *** A win without commission *)

Lemma sub_zero_r (x : float) : x - 0 = x.
Proof.
  apply Prim2SF_inj. rewrite sub_spec.
  change (Prim2SF 0) with (S754_zero false).
  now destruct (Prim2SF x) as [[]|[]| |[] m e].
Qed.

Lemma commission_of_nothing (profit : float) :
  finite_amount profit -> calculateCommission (Num profit) (Num 0) = 0.
Proof.
  unfold finite_amount, calculateCommission. intros Hp.
  change (ToNumber (Num 0) / 100) with 0. cbn [ToNumber].
  unfold round2, toFixed2. rewrite mul_spec.
  change (Prim2SF 0) with (S754_zero false).
  now destruct (Prim2SF profit) as [[]|[]| |[] m e].
Qed.

(** X2: with commission 0, or none passed, a won bet's result is the
    profit itself rounded to 2 decimals, as long as that profit is a finite
    number: stake×(odds−1) for every bet type but layBet, the stake for
    layBet. *)
Theorem won_result_without_commission
    (betType : string) (stake odds : float) (liability : numeric) :
  (betType <> "layBet" ->
   finite_amount (stake * (odds - 1)) ->
   calculateResult (Some "won") (Some betType) (Num stake) (Num odds)
                   liability Undefined
   = Normal (round2 (stake * (odds - 1))))
  /\ (finite_amount stake ->
      calculateResult (Some "won") (Some "layBet") (Num stake) (Num odds)
                      liability Undefined
      = Normal (round2 stake)).
Proof.
  split.
  - intros Hlay Hfin.
    assert (E : calculateResult (Some "won") (Some betType) (Num stake)
                  (Num odds) liability Undefined
                = Normal (round2 (stake * (odds - 1)
                                  - calculateCommission
                                      (Num (stake * (odds - 1))) (Num 0)))).
    { unfold calculateResult, switch_betType, strict_eq.
      apply String.eqb_neq in Hlay. rewrite Hlay. cbn.
      destruct (String.eqb betType "backBet");
        [reflexivity | now destruct (String.eqb betType "freeBet")]. }
    rewrite E, commission_of_nothing by exact Hfin. now rewrite sub_zero_r.
  - intros Hfin.
    change (calculateResult (Some "won") (Some "layBet") (Num stake)
              (Num odds) liability Undefined)
      with (Normal (round2 (stake - calculateCommission (Num stake) (Num 0)))).
    rewrite commission_of_nothing by exact Hfin. now rewrite sub_zero_r.
Qed.

Lemma won_result_without_commission_witness :
  calculateResult (Some "won") (Some "backBet") (Num 100) (Num 2.5)
                  (Num 0) Undefined = Normal (round2 (100 * (2.5 - 1)))
  /\ calculateResult (Some "won") (Some "layBet") (Num 100) (Num 2.5)
                     (Num 0) Undefined = Normal (round2 100).
Proof.
  destruct (won_result_without_commission "backBet" 100 2.5 (Num 0))
    as (Hback & Hlay).
  split.
  - apply Hback; [discriminate | exact I].
  - apply Hlay. exact I.
Defined.

(** ** The bets controller: what [createBet], [deleteBet] and [updateBet]
    keep *)

Lemma includes_In (l : list string) (v : option string) :
  includes l v = true -> exists s, v = Some s /\ In s l.
Proof.
  unfold includes. intros H. apply existsb_exists in H as (x & Hin & Heq).
  destruct v as [s|]; [|discriminate Heq].
  apply String.eqb_eq in Heq. subst x. eauto.
Qed.

Lemma fold_max_le (l : list Z) (a : Z) :
  (a <= fold_left Z.max l a)%Z
  /\ forall x, In x l -> (x <= fold_left Z.max l a)%Z.
Proof.
  revert a. induction l as [|y l IH]; intros a; simpl.
  - split; [lia|tauto].
  - destruct (IH (Z.max a y)) as (H1 & H2). split; [lia|].
    intros x [->|Hx]; [lia|auto].
Qed.

Lemma next_bet_id_fresh (db : database) (b : Bet.t) :
  In b (bets db) -> (Bet.id b < next_bet_id db)%Z.
Proof.
  intros Hb. unfold next_bet_id.
  pose proof (proj2 (fold_max_le (map Bet.id (bets db)) 0) (Bet.id b)
                (in_map Bet.id _ _ Hb)).
  lia.
Qed.

Section Find.
Context {A : Type}.
Variables p q : A -> bool.

Lemma find_app_some (l l' : list A) (x : A) :
  find p l = Some x -> find p (l ++ l') = Some x.
Proof.
  induction l as [|y l IH]; simpl; [discriminate|].
  destruct (p y); auto.
Qed.

Lemma find_app_none (l l' : list A) :
  (forall y, In y l -> p y = false) -> find p (l ++ l') = find p l'.
Proof.
  induction l as [|y l IH]; simpl; intros H; [reflexivity|].
  rewrite (H y) by auto. auto.
Qed.

Lemma find_app_miss (l : list A) (x : A) :
  p x = false -> find p (l ++ [x]) = find p l.
Proof.
  intros Hx. induction l as [|y l IH]; simpl.
  - now rewrite Hx.
  - now destruct (p y).
Qed.

Lemma filter_all (l : list A) :
  (forall y, In y l -> p y = true) -> filter p l = l.
Proof.
  induction l as [|y l IH]; simpl; intros H; [reflexivity|].
  rewrite (H y) by auto. f_equal. auto.
Qed.

Lemma filter_none (l : list A) :
  (forall y, In y l -> p y = false) -> filter p l = [].
Proof.
  induction l as [|y l IH]; simpl; intros H; [reflexivity|].
  rewrite (H y) by auto. auto.
Qed.

Lemma find_filter_kept (l : list A) :
  (forall y, p y = true -> q y = true) -> find p (filter q l) = find p l.
Proof.
  intros H. induction l as [|y l IH]; simpl; [reflexivity|].
  destruct (q y) eqn:Eq; simpl.
  - now destruct (p y).
  - destruct (p y) eqn:Ep; [|exact IH].
    apply H in Ep. congruence.
Qed.

Lemma find_filter_dropped (l : list A) :
  (forall y, p y = true -> q y = false) -> find p (filter q l) = None.
Proof.
  intros H. induction l as [|y l IH]; simpl; [reflexivity|].
  destruct (q y) eqn:Eq; simpl; [|exact IH].
  destruct (p y) eqn:Ep; [|exact IH].
  apply H in Ep. congruence.
Qed.

Lemma find_some_filter (l : list A) (x : A) :
  find p l = Some x -> filter p l <> [].
Proof.
  induction l as [|y l IH]; simpl; [discriminate|].
  destruct (p y); [discriminate|exact IH].
Qed.
End Find.

Lemma Normal_inj {A : Type} (a b : A) : Normal a = Normal b -> a = b.
Proof.
  intros H.
  exact (f_equal (fun c => match c with Normal x => x | Throw _ => a end) H).
Qed.

(** What a 201 of [createBet] tells about the request and the row. *)
Lemma createBet_created (db db' : database) (body : BetBody.t) (row : Bet.t) :
  createBet db body = (Json 201 row, db') ->
  db' = insert_bet row db
  /\ BetBody.idBookMaker body = Some (Bet.idBookMaker row)
  /\ BetBody.bank body = Some (Bet.bank row)
  /\ BetBody.betType body = Some (Bet.betType row)
  /\ BetBody.status body = Some (Bet.status row)
  /\ (Bet.stake row = ToNumber (BetBody.stake body)
      /\ truthy (BetBody.stake body) = true)
  /\ (Bet.odds row = ToNumber (BetBody.odds body)
      /\ truthy (BetBody.odds body) = true)
  /\ Bet.id row = next_bet_id db
  /\ well_formed_bet db row
  /\ calculateLiability (Some (Bet.status row)) (Some (Bet.betType row))
       (BetBody.stake body) (BetBody.odds body)
     = Normal (Bet.liability row)
  /\ calculateResult (Some (Bet.status row)) (Some (Bet.betType row))
       (BetBody.stake body) (BetBody.odds body)
       (Num (Bet.liability row)) Undefined
     = Normal (Bet.result row).
Proof.
  unfold createBet. intros H.
  destruct (_ || _) eqn:Hrequired in H; [discriminate H|].
  repeat (apply orb_false_iff in Hrequired as [Hrequired ?]).
  repeat match goal with
         | Hn : negb _ = false |- _ => apply negb_false_iff in Hn
         end.
  destruct (negb (includes validBanks _)) eqn:Hbank in H; [discriminate H|].
  destruct (negb (includes validTypes _)) eqn:Htype in H; [discriminate H|].
  destruct (negb (includes validStatus _)) eqn:Hstatus in H; [discriminate H|].
  apply negb_false_iff in Hbank, Htype, Hstatus.
  destruct (BetBody.idBookMaker body) as [idBookMaker|]; [|discriminate H].
  destruct (BetBody.bank body) as [bank|]; [|discriminate H].
  destruct (BetBody.betType body) as [betType|]; [|discriminate H].
  destruct (BetBody.betDate body) as [betDate|]; [|discriminate H].
  destruct (BetBody.eventDate body) as [eventDate|]; [|discriminate H].
  destruct (BetBody.event body) as [event|]; [|discriminate H].
  destruct (BetBody.bet body) as [bet|]; [|discriminate H].
  destruct (BetBody.status body) as [status|]; [|discriminate H].
  destruct (select_bookMaker db idBookMaker) as [bookMaker|] eqn:Hbm;
    [|discriminate H].
  rewrite commission_property_undefined in H.
  destruct (calculateLiability (Some status) (Some betType)
              (BetBody.stake body) (BetBody.odds body))
    as [liability|e] eqn:Hliability; [|discriminate H].
  cbn [bind] in H.
  destruct (calculateResult (Some status) (Some betType)
              (BetBody.stake body) (BetBody.odds body) (Num liability)
              Undefined)
    as [result|e] eqn:Hresult; [|discriminate H].
  cbn [bind] in H. injection H as <- <-.
  cbn [Bet.id Bet.idBookMaker Bet.bank Bet.betType Bet.status Bet.stake
       Bet.odds Bet.liability Bet.result].
  apply includes_In in Hbank as (s1 & E1 & Hbank).
  apply includes_In in Htype as (s2 & E2 & Htype).
  apply includes_In in Hstatus as (s3 & E3 & Hstatus).
  injection E1 as <-. injection E2 as <-. injection E3 as <-.
  repeat (split; [reflexivity|]).
  split; [split; [reflexivity|assumption]|].
  split; [split; [reflexivity|assumption]|].
  split; [reflexivity|].
  split; [|split; assumption].
  unfold well_formed_bet.
  cbn [Bet.id Bet.idBookMaker Bet.bank Bet.betType Bet.status].
  rewrite Hbm. repeat (split; [assumption|]). discriminate.
Qed.

Lemma calculateLiability_never_throws_on_number
    (status betType : option string) (stake : float) (odds : value) :
  exists l, calculateLiability status betType (Num stake) odds = Normal l.
Proof.
  unfold calculateLiability.
  destruct (negb (strict_eq status "pending")); [eauto|].
  destruct (switch_betType betType); simpl; eauto.
Qed.

Lemma calculateResult_never_throws_on_numbers
    (status betType : option string) (stake liability : float)
    (odds commission : value) :
  exists r,
    calculateResult status betType (Num stake) odds (Num liability) commission
    = Normal r.
Proof.
  unfold calculateResult.
  destruct (strict_eq status "pending"); [eauto|].
  destruct (switch_betType betType), (strict_eq status "won"); simpl; eauto.
Qed.

Lemma createBet_cases (db : database) (body : BetBody.t) :
  (exists row, createBet db body = (Json 201 row, insert_bet row db))
  \/ (exists code message,
        createBet db body = (Message code message, db)
        /\ (code = 400 \/ code = 404 \/ code = 500)%Z).
Proof.
  unfold createBet.
  repeat match goal with
         | |- context [if ?c then (Message 400 ?m, db) else _] =>
             destruct c eqn:?;
             [right; exists 400%Z, m; split; [reflexivity|tauto]|]
         end.
  destruct (BetBody.idBookMaker body) as [idBookMaker|];
    [|right; do 2 eexists; split; [reflexivity|tauto]].
  destruct (BetBody.bank body) as [bank|];
    [|right; do 2 eexists; split; [reflexivity|tauto]].
  destruct (BetBody.betType body) as [betType|];
    [|right; do 2 eexists; split; [reflexivity|tauto]].
  destruct (BetBody.betDate body) as [betDate|];
    [|right; do 2 eexists; split; [reflexivity|tauto]].
  destruct (BetBody.eventDate body) as [eventDate|];
    [|right; do 2 eexists; split; [reflexivity|tauto]].
  destruct (BetBody.event body) as [event|];
    [|right; do 2 eexists; split; [reflexivity|tauto]].
  destruct (BetBody.bet body) as [bet|];
    [|right; do 2 eexists; split; [reflexivity|tauto]].
  destruct (BetBody.status body) as [status|];
    [|right; do 2 eexists; split; [reflexivity|tauto]].
  destruct (select_bookMaker db idBookMaker) as [bookMaker|];
    [|right; do 2 eexists; split; [reflexivity|tauto]].
  destruct (calculateLiability (Some status) (Some betType)
              (BetBody.stake body) (BetBody.odds body)) as [l|e];
    cbn [bind]; [|right; do 2 eexists; split; [reflexivity|tauto]].
  destruct (calculateResult (Some status) (Some betType)
              (BetBody.stake body) (BetBody.odds body) (Num l)
              (BookMaker.number_property bookMaker "commission")) as [r|e];
    cbn [bind]; [|right; do 2 eexists; split; [reflexivity|tauto]].
  left. eexists. reflexivity.
Qed.

Lemma createBet_number_stake (db : database) (body : BetBody.t)
    (stake : float) (message : string) :
  BetBody.stake body = Num stake ->
  fst (createBet db body) <> Message 500 message.
Proof.
  intros Hstake. unfold createBet. rewrite Hstake.
  repeat match goal with
         | |- context [if ?c then (Message 400 ?m, db) else _] =>
             destruct c; [discriminate|]
         end.
  destruct (BetBody.idBookMaker body) as [idBookMaker|]; [|discriminate].
  destruct (BetBody.bank body) as [bank|]; [|discriminate].
  destruct (BetBody.betType body) as [betType|]; [|discriminate].
  destruct (BetBody.betDate body) as [betDate|]; [|discriminate].
  destruct (BetBody.eventDate body) as [eventDate|]; [|discriminate].
  destruct (BetBody.event body) as [event|]; [|discriminate].
  destruct (BetBody.bet body) as [bet|]; [|discriminate].
  destruct (BetBody.status body) as [status|]; [|discriminate].
  destruct (select_bookMaker db idBookMaker) as [bookMaker|]; [|discriminate].
  destruct (calculateLiability_never_throws_on_number (Some status)
              (Some betType) stake (BetBody.odds body)) as (l & ->).
  cbn [bind].
  destruct (calculateResult_never_throws_on_numbers (Some status)
              (Some betType) stake l (BetBody.odds body)
              (BookMaker.number_property bookMaker "commission")) as (r & ->).
  cbn [bind]. discriminate.
Qed.

(** X3: [createBet] writes with a 201 and only then: it answers 201 and
    the database gains the returned row and nothing else, or it answers 400,
    404 or 500 and leaves the database as it was.  When the stake and the
    odds of the request are numbers the calculator does not throw, so the
    500 of the [catch] is not its doing; a stake sent as a string passes the
    validation and can make [stake.toFixed] throw. *)
Theorem createBet_outcomes (db : database) (body : BetBody.t) :
  ((exists row, createBet db body = (Json 201 row, insert_bet row db))
   \/ (exists code message,
         createBet db body = (Message code message, db)
         /\ (code = 400 \/ code = 404 \/ code = 500)%Z))
  /\ (forall stake odds : float,
        BetBody.stake body = Num stake ->
        BetBody.odds body = Num odds ->
        forall message, fst (createBet db body) <> Message 500 message).
Proof.
  split; [exact (createBet_cases db body)|].
  intros stake odds Hstake _ message.
  exact (createBet_number_stake db body stake message Hstake).
Qed.

Lemma createBet_outcomes_witness :
  (forall message,
     fst (createBet sample_db pending_lay_request) <> Message 500 message)
  /\ createBet sample_db string_stake_back_request
     = (Message 500 "Error al crear la apuesta", sample_db)
  /\ Bet.liability
       (created (fst (createBet sample_db string_stake_lay_request))
                won_back_bet) = 40.
Proof.
  destruct (createBet_outcomes sample_db pending_lay_request) as (_ & Hnumber).
  split; [exact (Hnumber 20 3 eq_refl eq_refl)|].
  split; vm_compute; reflexivity.
Defined.

Lemma liability_of_settled (status betType : option string)
    (stake odds : value) (l : float) :
  calculateLiability status betType stake odds = Normal l ->
  strict_eq status "pending" = false -> l = 0.
Proof.
  unfold calculateLiability. intros H Hs. rewrite Hs in H.
  symmetry. exact (Normal_inj _ _ H).
Qed.

Lemma result_of_pending (status betType : option string)
    (stake odds liability commission : value) (r : float) :
  calculateResult status betType stake odds liability commission = Normal r ->
  strict_eq status "pending" = true -> r = 0.
Proof.
  unfold calculateResult. intros H Hs. rewrite Hs in H.
  symmetry. exact (Normal_inj _ _ H).
Qed.

(** X4: every bet [createBet] stores is consistent with its status: a
    pending bet carries result 0, a won or lost bet carries liability 0. *)
Theorem createBet_settled_consistently
    (db db' : database) (body : BetBody.t) (row : Bet.t) :
  createBet db body = (Json 201 row, db') ->
  settled_consistently row.
Proof.
  intros H.
  destruct (createBet_created _ _ _ _ H)
    as (_ & _ & _ & _ & _ & _ & _ & _ & _ & Hl & Hr).
  split; intros Hs.
  - apply (result_of_pending _ _ _ _ _ _ _ Hr).
    simpl. now apply String.eqb_eq.
  - apply (liability_of_settled _ _ _ _ _ Hl).
    simpl. now apply String.eqb_neq.
Qed.

Lemma createBet_settled_consistently_witness :
  settled_consistently
    (created (fst (createBet sample_db pending_lay_request)) won_back_bet)
  /\ Bet.liability
       (created (fst (createBet sample_db pending_lay_request)) won_back_bet)
     = 40.
Proof.
  split; [|vm_compute; reflexivity].
  apply (createBet_settled_consistently sample_db
           (snd (createBet sample_db pending_lay_request))
           pending_lay_request).
  vm_compute. reflexivity.
Defined.

(** X5: a lay bet entered as lost is stored with liability 0 and result
    -0: [createBet] hands [calculateResult] the liability it has just
    computed, which is 0 for a bet that is not pending, so the loss recorded
    is nothing, whatever the stake and the odds. *)
Theorem createBet_lost_layBet
    (db db' : database) (body : BetBody.t) (row : Bet.t) :
  createBet db body = (Json 201 row, db') ->
  BetBody.status body = Some "lost" ->
  BetBody.betType body = Some "layBet" ->
  Bet.liability row = 0 /\ Bet.result row = neg_zero.
Proof.
  intros H Hstatus Htype.
  destruct (createBet_created _ _ _ _ H)
    as (_ & _ & _ & Et & Es & _ & _ & _ & _ & Hl & Hr).
  rewrite Hstatus in Es. rewrite Htype in Et.
  injection Es as Es. injection Et as Et. rewrite <- Es, <- Et in Hl, Hr.
  assert (El : Bet.liability row = 0)
    by (apply (liability_of_settled _ _ _ _ _ Hl); reflexivity).
  split; [exact El|].
  rewrite El in Hr. symmetry. exact (Normal_inj _ _ Hr).
Qed.

Lemma createBet_lost_layBet_witness :
  Bet.liability
    (created (fst (createBet sample_db lost_lay_request)) won_back_bet) = 0
  /\ Bet.result
       (created (fst (createBet sample_db lost_lay_request)) won_back_bet)
     = neg_zero.
Proof.
  apply (createBet_lost_layBet sample_db
           (snd (createBet sample_db lost_lay_request)) lost_lay_request);
    vm_compute; reflexivity.
Defined.

Lemma createBet_reads_back
    (db db' : database) (body : BetBody.t) (row : Bet.t) :
  createBet db body = (Json 201 row, db') ->
  db' = insert_bet row db /\ select_bet db' (Bet.id row) = Some row.
Proof.
  intros H.
  destruct (createBet_created _ _ _ _ H)
    as (-> & _ & _ & _ & _ & _ & _ & Hid & _).
  split; [reflexivity|].
  unfold select_bet, insert_bet. cbn [bets].
  rewrite find_app_none.
  - simpl. now rewrite Z.eqb_refl.
  - intros y Hy. apply Z.eqb_neq.
    pose proof (next_bet_id_fresh db y Hy). lia.
Qed.

(** X6: the bet [createBet] stores has bank, type and status among the
    listed values and an existing bookmaker; a stake or odds sent as a
    number is stored as sent and is neither 0 nor NaN (one sent as a string
    is only known to be non-empty); the bet can be read back by its id, and
    every bet that could be read before still reads the same. *)
Theorem createBet_row_well_formed
    (db db' : database) (body : BetBody.t) (row : Bet.t) :
  createBet db body = (Json 201 row, db') ->
  well_formed_bet db' row
  /\ (forall stake : float,
        BetBody.stake body = Num stake ->
        Bet.stake row = stake /\ truthy_number stake = true)
  /\ (forall odds : float,
        BetBody.odds body = Num odds ->
        Bet.odds row = odds /\ truthy_number odds = true)
  /\ select_bet db' (Bet.id row) = Some row
  /\ forall id b, select_bet db id = Some b -> select_bet db' id = Some b.
Proof.
  intros H.
  destruct (createBet_created _ _ _ _ H)
    as (-> & _ & _ & _ & _ & (Hstake & Tstake) & (Hodds & Todds) & Hid & Hwf
        & _).
  split; [exact Hwf|].
  split; [intros stake E; rewrite E in Hstake, Tstake; now split|].
  split; [intros odds E; rewrite E in Hodds, Todds; now split|].
  split.
  - unfold select_bet, insert_bet. cbn [bets].
    rewrite find_app_none.
    + simpl. now rewrite Z.eqb_refl.
    + intros y Hy. apply Z.eqb_neq.
      pose proof (next_bet_id_fresh db y Hy). lia.
  - intros id b Hb. unfold select_bet, insert_bet. cbn [bets].
    now apply find_app_some.
Qed.

Lemma createBet_row_well_formed_witness :
  select_bet (snd (createBet sample_db pending_lay_request)) 3
  = Some (created (fst (createBet sample_db pending_lay_request))
                  won_back_bet)
  /\ select_bet (snd (createBet sample_db pending_lay_request)) 2
     = Some pending_lay_bet
  /\ Bet.stake (created (fst (createBet sample_db pending_lay_request))
                        won_back_bet) = 20.
Proof.
  destruct (createBet_row_well_formed sample_db
              (snd (createBet sample_db pending_lay_request))
              pending_lay_request
              (created (fst (createBet sample_db pending_lay_request))
                       won_back_bet))
    as (_ & Hstake & _ & Hnew & Hold).
  - vm_compute. reflexivity.
  - split; [exact Hnew|]. split; [apply Hold; reflexivity|].
    exact (proj1 (Hstake 20 eq_refl)).
Defined.

(** X7: a bet that is won or lost cannot be deleted: [deleteBet] answers
    400 and the database stays as it was. *)
Theorem deleteBet_settled_refused (db : database) (id : Z) (bet : Bet.t) :
  select_bet db id = Some bet ->
  Bet.status bet = "won" \/ Bet.status bet = "lost" ->
  deleteBet db id
  = (Message 400 "No se puede eliminar una apuesta ya resuelta", db).
Proof.
  intros Hbet Hstatus. unfold deleteBet. rewrite Hbet.
  destruct Hstatus as [-> | ->]; reflexivity.
Qed.

Lemma deleteBet_settled_refused_witness :
  deleteBet sample_db 1
  = (Message 400 "No se puede eliminar una apuesta ya resuelta", sample_db).
Proof.
  apply (deleteBet_settled_refused sample_db 1 won_back_bet);
    [reflexivity | left; reflexivity].
Defined.

Lemma deleteBet_deletes (db : database) (id : Z) (bet : Bet.t) :
  select_bet db id = Some bet ->
  Bet.status bet <> "won" -> Bet.status bet <> "lost" ->
  deleteBet db id = (Json 200 id, delete_bets id db).
Proof.
  intros Hbet Hwon Hlost. unfold deleteBet. rewrite Hbet.
  apply String.eqb_neq in Hwon, Hlost. rewrite Hwon, Hlost. cbn [orb].
  unfold affected_bets.
  pose proof (find_some_filter _ _ _ Hbet) as Hne.
  destruct (filter _ (bets db)); [now elim Hne | reflexivity].
Qed.

(** X8: deleting a bet that is neither won nor lost answers 200 with its
    id; afterwards no bet has that id, every other bet reads as before, and
    bookmakers and transactions are untouched. *)
Theorem deleteBet_removes (db : database) (id : Z) (bet : Bet.t) :
  select_bet db id = Some bet ->
  Bet.status bet <> "won" -> Bet.status bet <> "lost" ->
  exists db',
    deleteBet db id = (Json 200 id, db')
    /\ select_bet db' id = None
    /\ (forall other, other <> id -> select_bet db' other = select_bet db other)
    /\ bookMakers db' = bookMakers db
    /\ transactions db' = transactions db.
Proof.
  intros Hbet Hwon Hlost. exists (delete_bets id db).
  split; [now apply (deleteBet_deletes db id bet)|].
  split; [|split; [|split; reflexivity]].
  - unfold select_bet, delete_bets. cbn [bets].
    apply find_filter_dropped. intros y ->. reflexivity.
  - intros other Hother. unfold select_bet, delete_bets. cbn [bets].
    apply find_filter_kept. intros y Hy.
    apply Z.eqb_eq in Hy. apply negb_true_iff, Z.eqb_neq. lia.
Qed.

Lemma deleteBet_removes_witness :
  exists db',
    deleteBet sample_db 2 = (Json 200 2%Z, db')
    /\ select_bet db' 2 = None
    /\ (forall other, other <> 2%Z ->
          select_bet db' other = select_bet sample_db other)
    /\ bookMakers db' = bookMakers sample_db
    /\ transactions db' = transactions sample_db.
Proof.
  apply (deleteBet_removes sample_db 2 pending_lay_bet);
    [reflexivity | discriminate | discriminate].
Defined.

(** X9: deleting the pending bet [createBet] has just stored undoes the
    creation: [deleteBet] answers 200 and the three tables hold what they
    held before. *)
Theorem createBet_then_deleteBet
    (db db' : database) (body : BetBody.t) (row : Bet.t) :
  createBet db body = (Json 201 row, db') ->
  BetBody.status body = Some "pending" ->
  deleteBet db' (Bet.id row) = (Json 200 (Bet.id row), db).
Proof.
  intros H Hstatus.
  destruct (createBet_reads_back db db' body row H) as (Hdb & Hnew).
  destruct (createBet_created _ _ _ _ H)
    as (_ & _ & _ & _ & Es & _ & _ & Hid & _).
  rewrite Hstatus in Es. injection Es as Es.
  rewrite (deleteBet_deletes db' (Bet.id row) row Hnew)
    by (rewrite <- Es; discriminate).
  f_equal. subst db'. unfold delete_bets, insert_bet. cbn [bets bookMakers
    transactions].
  rewrite filter_app. simpl. rewrite Z.eqb_refl. simpl.
  rewrite app_nil_r, filter_all.
  - now destruct db.
  - intros y Hy. apply negb_true_iff, Z.eqb_neq.
    pose proof (next_bet_id_fresh db y Hy). lia.
Qed.

Lemma createBet_then_deleteBet_witness :
  deleteBet (snd (createBet sample_db pending_lay_request)) 3
  = (Json 200 3%Z, sample_db).
Proof.
  apply (createBet_then_deleteBet sample_db
           (snd (createBet sample_db pending_lay_request))
           pending_lay_request
           (created (fst (createBet sample_db pending_lay_request))
                    won_back_bet));
    vm_compute; reflexivity.
Defined.

(** X10: [updateBet] is read-only: whatever the id and the body, it never
    answers 200 and the database it leaves is the one it found. *)
Theorem updateBet_is_read_only (db : database) (id : Z) (body : BetBody.t) :
  snd (updateBet db id body) = db
  /\ forall updated, fst (updateBet db id body) <> Json 200 updated.
Proof.
  destruct (updateBet_never_writes db id body) as (code & message & -> & _).
  split; [reflexivity | discriminate].
Qed.

Lemma pending_results_zero_app (rows : list Bet.t) (row : Bet.t) :
  pending_results_zero rows ->
  (is_pending row = true -> Bet.result row = 0) ->
  pending_results_zero (rows ++ [row]).
Proof.
  intros Hrows Hrow b Hb. apply in_app_or in Hb as [Hb|[<-|[]]]; auto.
Qed.

(** X11: the handlers on bets keep the invariant the balance formulas
    rest on, that a pending bet carries result 0: it holds after every
    [createBet], [deleteBet] and [updateBet] if it held before. *)
Theorem bets_handlers_keep_pending_results_zero (db : database) :
  pending_results_zero (bets db) ->
  (forall body, pending_results_zero (bets (snd (createBet db body))))
  /\ (forall id, pending_results_zero (bets (snd (deleteBet db id))))
  /\ (forall id body,
        pending_results_zero (bets (snd (updateBet db id body)))).
Proof.
  intros Hinv. split; [|split].
  - intros body.
    destruct (createBet_cases db body)
      as [(row & E) | (code & message & E & _)];
      rewrite E; cbn [snd]; [|exact Hinv].
    apply pending_results_zero_app; [exact Hinv|].
    intros Hpending.
    destruct (createBet_created _ _ _ _ E)
      as (_ & _ & _ & _ & _ & _ & _ & _ & _ & _ & Hr).
    apply (result_of_pending _ _ _ _ _ _ _ Hr). exact Hpending.
  - intros id. unfold deleteBet.
    destruct (select_bet db id) as [bet|]; [|exact Hinv].
    destruct (_ || _); [exact Hinv|].
    assert (Hdeleted : pending_results_zero (bets (delete_bets id db))).
    { intros b Hb. apply filter_In in Hb as [Hb _]. now apply Hinv. }
    now destruct (Nat.eqb _ 0).
  - intros id body.
    destruct (updateBet_never_writes db id body) as (code & message & -> & _).
    exact Hinv.
Qed.

Lemma bets_handlers_keep_pending_results_zero_witness :
  pending_results_zero (bets (snd (createBet sample_db pending_lay_request)))
  /\ pending_results_zero (bets (snd (deleteBet sample_db 2)))
  /\ pending_results_zero (bets (snd (updateBet sample_db 2 settle_request))).
Proof.
  destruct (bets_handlers_keep_pending_results_zero sample_db
              sample_db_pending_results_zero) as (Hcreate & Hdelete & Hupdate).
  split; [apply Hcreate | split; [apply Hdelete | apply Hupdate]].
Defined.

(** ** The bookmakers, transactions and freebets controllers *)

Lemma In_includes (l : list string) (s : string) :
  In s l -> includes l (Some s) = true.
Proof.
  intros H. unfold includes. apply existsb_exists. exists s.
  split; [exact H|]. simpl. apply String.eqb_refl.
Qed.

Lemma no_rows (A : Type) (l : list A) : Nat.ltb 0 (length l) = false -> l = [].
Proof. destruct l; [reflexivity|discriminate]. Qed.

Lemma next_bookMaker_id_fresh (db : database) (bm : BookMaker.t) :
  In bm (bookMakers db) -> (BookMaker.id bm < next_bookMaker_id db)%Z.
Proof.
  intros Hbm. unfold next_bookMaker_id.
  pose proof (proj2 (fold_max_le (map BookMaker.id (bookMakers db)) 0)
                (BookMaker.id bm) (in_map BookMaker.id _ _ Hbm)).
  lia.
Qed.

(** What [createBookMaker] does, case by case. *)
Lemma createBookMaker_cases (db : database) (body : BookMakerBody.t) :
  (exists row,
     createBookMaker db body = (Json 201 row, insert_bookMaker row db)
     /\ BookMaker.id row = next_bookMaker_id db
     /\ select_bookMaker_named db (BookMaker.name row) = None
     /\ not_a_percentage (Num (BookMaker.comission row)) = false
     /\ In (BookMaker.type row) validBookMakerTypes
     /\ BookMakerBody.initialBalance body = Num (BookMaker.initialBalance row))
  \/ (exists code message,
        createBookMaker db body = (Message code message, db)
        /\ (code = 400 \/ code = 409)%Z).
Proof.
  unfold createBookMaker.
  repeat match goal with
         | |- context [if ?c then (Message 400 ?m, db) else _] =>
             destruct c eqn:?;
             [right; exists 400%Z, m; split; [reflexivity|tauto]|]
         end.
  destruct (BookMakerBody.name body) as [name|];
    [|right; do 2 eexists; split; [reflexivity|tauto]].
  destruct (BookMakerBody.type body) as [type|];
    [|right; do 2 eexists; split; [reflexivity|tauto]].
  destruct (select_bookMaker_named db name) as [existing|] eqn:Hname;
    [right; do 2 eexists; split; [reflexivity|tauto]|].
  left. eexists. split; [reflexivity|].
  cbn [BookMaker.id BookMaker.name BookMaker.comission BookMaker.type
       BookMaker.initialBalance].
  match goal with
  | Hc : not_a_percentage _ = false |- _ =>
      destruct (BookMakerBody.comission body) as [| |c]; try discriminate Hc
  end.
  match goal with
  | Hb : not_a_number _ = false |- _ =>
      destruct (BookMakerBody.initialBalance body) as [| |b];
        try discriminate Hb
  end.
  match goal with
  | Ht : negb (includes validBookMakerTypes _) = false |- _ =>
      apply negb_false_iff, includes_In in Ht as (t & Et & Ht);
        injection Et as <-
  end.
  cbn [ToNumber]. repeat split; assumption.
Qed.

(** X12: [createBookMaker] keeps the keys of the table: if names and ids
    were unique before the call they are unique after it, whatever the
    body. *)
Theorem createBookMaker_keeps_keys (db : database) (body : BookMakerBody.t) :
  unique_names db -> unique_ids db ->
  unique_names (snd (createBookMaker db body))
  /\ unique_ids (snd (createBookMaker db body)).
Proof.
  intros Hnames Hids.
  destruct (createBookMaker_cases db body)
    as [(row & E & Hid & Hfresh & _) | (code & message & E & _)];
    rewrite E; cbn [snd]; [|now split].
  unfold unique_names, unique_ids, insert_bookMaker. cbn [bookMakers].
  rewrite !map_app. cbn [map].
  split; (apply NoDup_app; [assumption | repeat constructor; exact (@in_nil _ _) |]).
  - intros n Hn [<-|[]]. apply in_map_iff in Hn as (bm & Ebm & Hbm).
    pose proof (find_none _ _ Hfresh bm Hbm) as Hne. cbv beta in Hne.
    rewrite Ebm, String.eqb_refl in Hne. discriminate Hne.
  - intros i Hi [<-|[]]. apply in_map_iff in Hi as (bm & Ebm & Hbm).
    pose proof (next_bookMaker_id_fresh db bm Hbm). lia.
Qed.

Lemma createBookMaker_keeps_keys_witness :
  unique_names (snd (createBookMaker sample_db new_bookmaker_request))
  /\ unique_ids (snd (createBookMaker sample_db new_bookmaker_request))
  /\ length (bookMakers (snd (createBookMaker sample_db new_bookmaker_request)))
     = 3%nat.
Proof.
  destruct (createBookMaker_keeps_keys sample_db new_bookmaker_request)
    as (Hnames & Hids).
  - exact sample_db_unique_names.
  - repeat constructor; simpl; intuition discriminate.
  - split; [exact Hnames | split; [exact Hids | reflexivity]].
Defined.

(** What [updateBookMaker] does to the database. *)
Lemma updateBookMaker_cases (db : database) (id : Z) (body : BookMakerBody.t) :
  snd (updateBookMaker db id body) = db
  \/ (snd (updateBookMaker db id body) = update_bookMakers id body db
      /\ (BookMakerBody.comission body = Undefined
          \/ exists c, BookMakerBody.comission body = Num c
                       /\ not_a_percentage (Num c) = false)).
Proof.
  unfold updateBookMaker.
  destruct (select_bookMaker db id) as [existing|]; [|now left].
  destruct (truthy_string (BookMakerBody.type body) && _); [now left|].
  destruct (negb (is_undefined (BookMakerBody.comission body)) && _) eqn:Hc;
    [now left|].
  destruct (negb (is_undefined (BookMakerBody.initialBalance body)) && _);
    [now left|].
  destruct (truthy_string (BookMakerBody.name body) && _); [now left|].
  right. split; [reflexivity|].
  destruct (BookMakerBody.comission body) as [| |c];
    [now left | discriminate Hc | right; now exists c].
Qed.

(** X13: a commission outside 0..100 never reaches the table: if every
    stored commission passes the check [comission < 0 || comission > 100],
    so does every one after [createBookMaker] and after [updateBookMaker],
    whatever the body. *)
Theorem handlers_keep_percentages (db : database) (body : BookMakerBody.t) :
  percentages db ->
  percentages (snd (createBookMaker db body))
  /\ forall id, percentages (snd (updateBookMaker db id body)).
Proof.
  intros Hinv. split.
  - destruct (createBookMaker_cases db body)
      as [(row & E & _ & _ & Hc & _) | (code & message & E & _)];
      rewrite E; cbn [snd]; [|exact Hinv].
    intros bm Hbm. apply in_app_or in Hbm as [Hbm|[<-|[]]]; auto.
  - intros id.
    destruct (updateBookMaker_cases db id body) as [-> | (-> & Hc)];
      [exact Hinv|].
    intros bm Hbm. unfold update_bookMakers in Hbm. cbn [bookMakers] in Hbm.
    apply in_map_iff in Hbm as (old & <- & Hold).
    destruct (Z.eqb (BookMaker.id old) id); [|now apply Hinv].
    unfold update_bookMaker_row. cbn [BookMaker.comission].
    destruct Hc as [-> | (c & -> & Hc)]; [now apply Hinv | exact Hc].
Qed.

Lemma sample_db_percentages : percentages sample_db.
Proof.
  intros bm [<-|[<-|[]]]; reflexivity.
Qed.

Lemma handlers_keep_percentages_witness :
  percentages (snd (createBookMaker sample_db new_bookmaker_request))
  /\ percentages (snd (updateBookMaker sample_db 1 commission_request))
  /\ option_map BookMaker.comission
       (select_bookMaker (snd (updateBookMaker sample_db 1 commission_request))
                         1) = Some 6.5.
Proof.
  destruct (handlers_keep_percentages sample_db new_bookmaker_request
              sample_db_percentages) as (Hcreate & _).
  destruct (handlers_keep_percentages sample_db commission_request
              sample_db_percentages) as (_ & Hupdate).
  split; [exact Hcreate | split; [apply Hupdate | reflexivity]].
Defined.

(** What [deleteBookMaker] does to the database. *)
Lemma deleteBookMaker_cases (db : database) (freebets : list Freebet.t)
    (id : Z) :
  snd (deleteBookMaker db freebets id) = db
  \/ (snd (deleteBookMaker db freebets id) = delete_bookMakers id db
      /\ bets_of db id = []
      /\ transactions_of db id = []
      /\ filter (fun f => Z.eqb (Freebet.idBookMaker f) id) freebets = []).
Proof.
  unfold deleteBookMaker.
  destruct (select_bookMaker db id) as [bookMaker|]; [|now left].
  destruct (Nat.ltb 0 (length (bets_of db id))) eqn:Hb; [now left|].
  destruct (Nat.ltb 0 (length (transactions_of db id))) eqn:Ht; [now left|].
  destruct (Nat.ltb 0 (length (filter _ freebets))) eqn:Hf; [now left|].
  apply no_rows in Hb, Ht, Hf.
  right. split; [now destruct (Nat.eqb _ 0)|]. now repeat split.
Qed.

Lemma select_bookMaker_after_delete (db : database) (id other : Z) :
  other <> id ->
  select_bookMaker (delete_bookMakers id db) other = select_bookMaker db other.
Proof.
  intros Hother. unfold select_bookMaker, delete_bookMakers. cbn [bookMakers].
  apply find_filter_kept. intros bm Hbm.
  apply Z.eqb_eq in Hbm. apply negb_true_iff, Z.eqb_neq. lia.
Qed.

Lemma not_in_filter {A : Type} (p : A -> bool) (l : list A) (x : A) :
  filter p l = [] -> In x l -> p x = false.
Proof.
  intros Hnil Hx. destruct (p x) eqn:Hp; [|reflexivity].
  assert (Hin : In x (filter p l)) by (apply filter_In; now split).
  rewrite Hnil in Hin. destruct Hin.
Qed.

(** X14: [deleteBookMaker] orphans nothing: if every bet, transaction and
    freebet named an existing bookmaker before the call, each still does
    after it, whichever id is deleted. *)
Theorem deleteBookMaker_keeps_references
    (db : database) (freebets : list Freebet.t) (id : Z) :
  references_kept db freebets ->
  references_kept (snd (deleteBookMaker db freebets id)) freebets.
Proof.
  intros (Hbets & Htransactions & Hfreebets).
  destruct (deleteBookMaker_cases db freebets id)
    as [-> | (-> & Hb & Ht & Hf)]; [now repeat split|].
  repeat split.
  - intros b Hin. rewrite select_bookMaker_after_delete; [now apply Hbets|].
    pose proof (not_in_filter _ _ b Hb Hin) as Hne. cbv beta in Hne.
    now apply Z.eqb_neq.
  - intros t Hin.
    rewrite select_bookMaker_after_delete; [now apply Htransactions|].
    pose proof (not_in_filter _ _ t Ht Hin) as Hne. cbv beta in Hne.
    now apply Z.eqb_neq.
  - intros f Hin.
    rewrite select_bookMaker_after_delete; [now apply Hfreebets|].
    pose proof (not_in_filter _ _ f Hf Hin) as Hne. cbv beta in Hne.
    now apply Z.eqb_neq.
Qed.

Lemma idle_db_references_kept : references_kept idle_db [sample_freebet].
Proof.
  repeat split; intros x Hx; simpl in Hx;
    repeat (destruct Hx as [<-|Hx]; [discriminate|]); destruct Hx.
Qed.

Lemma deleteBookMaker_keeps_references_witness :
  references_kept (snd (deleteBookMaker idle_db [sample_freebet] 3))
                  [sample_freebet]
  /\ deleteBookMaker idle_db [sample_freebet] 3 = (Json 200 3%Z, sample_db)
  /\ fst (deleteBookMaker idle_db [sample_freebet] 1)
     = Message 409 "No se puede eliminar la Casa de Apuestas porque tiene apuestas asociadas".
Proof.
  split; [|split; reflexivity].
  apply deleteBookMaker_keeps_references. exact idle_db_references_kept.
Defined.

(** What [createTransaction] does, case by case. *)
Lemma createTransaction_cases (db : database) (body : TransactionBody.t) :
  (exists row,
     createTransaction db body = (Json 201 row, insert_transaction row db)
     /\ TransactionBody.idBookMaker body = Some (Transaction.idBookMaker row)
     /\ TransactionBody.date body = Some (Transaction.date row)
     /\ In (Transaction.type row) validTransactionTypes
     /\ (Transaction.amount row = ToNumber (TransactionBody.amount body)
         /\ truthy (TransactionBody.amount body) = true)
     /\ select_bookMaker db (Transaction.idBookMaker row) <> None)
  \/ (exists code message,
        createTransaction db body = (Message code message, db)
        /\ (code = 400 \/ code = 404)%Z).
Proof.
  unfold createTransaction.
  repeat match goal with
         | |- context [if ?c then (Message 400 ?m, db) else _] =>
             destruct c eqn:?;
             [right; exists 400%Z, m; split; [reflexivity|tauto]|]
         end.
  destruct (TransactionBody.idBookMaker body) as [idBookMaker|];
    [|right; do 2 eexists; split; [reflexivity|tauto]].
  destruct (TransactionBody.type body) as [type|];
    [|right; do 2 eexists; split; [reflexivity|tauto]].
  destruct (TransactionBody.date body) as [date|];
    [|right; do 2 eexists; split; [reflexivity|tauto]].
  destruct (select_bookMaker db idBookMaker) as [bookMaker|] eqn:Hbm;
    [|right; do 2 eexists; split; [reflexivity|tauto]].
  left. eexists. split; [reflexivity|].
  cbn [Transaction.idBookMaker Transaction.date Transaction.type
       Transaction.amount].
  match goal with
  | Hrequired : _ || _ = false |- _ =>
      repeat (apply orb_false_iff in Hrequired as [Hrequired ?])
  end.
  repeat match goal with
         | Hn : negb _ = false |- _ => apply negb_false_iff in Hn
         end.
  match goal with
  | Ht : includes validTransactionTypes _ = true |- _ =>
      apply includes_In in Ht as (t & Et & Ht); injection Et as <-
  end.
  rewrite Hbm. repeat split; try assumption. discriminate.
Qed.



(** *** Freebets *)

Lemma find_map_update {A : Type} (key : A -> Z) (f : A -> A) (id : Z)
    (l : list A) (x : A) :
  (forall y, key (f y) = key y) ->
  find (fun y => Z.eqb (key y) id) l = Some x ->
  find (fun y => Z.eqb (key y) id)
       (map (fun y => if Z.eqb (key y) id then f y else y) l)
  = Some (f x).
Proof.
  intros Hkey. induction l as [|y l IH]; simpl; [discriminate|].
  destruct (Z.eqb (key y) id) eqn:Ey.
  - intros H. rewrite Hkey, Ey. now injection H as ->.
  - rewrite Ey. exact IH.
Qed.

Lemma valid_or_absent (l : list string) (v : option string) :
  (forall s, v = Some s -> In s l) ->
  truthy_string v && negb (includes l v) = false.
Proof.
  intros H. destruct v as [s|]; [|reflexivity].
  rewrite (In_includes l s) by auto. apply andb_false_r.
Qed.

(** X16: the amount 0 that [createFreebet] refuses, [updateFreebet] lets
    in: a creation whose amount is 0 is answered 400 with nothing written,
    while an update that sets the amount of an existing freebet to 0 and
    keeps its bookmaker (type and status, when given, being listed values)
    answers 200 and the freebet read back has amount 0. *)
Theorem freebet_amount_zero
    (db : database) (freebets : list Freebet.t) (id : Z)
    (body : FreebetBody.t) (existing : Freebet.t) :
  FreebetBody.amount body = Num 0 ->
  FreebetBody.idBookMaker body = None ->
  select_freebet freebets id = Some existing ->
  (forall t, FreebetBody.type body = Some t -> In t validFreebetTypes) ->
  (forall s, FreebetBody.status body = Some s -> In s validFreebetStatus) ->
  createFreebet db freebets body
  = (Message 400 "Los campos idBookMaker, type, amount, date, event y status son obligatorios",
     freebets)
  /\ exists updated freebets',
       updateFreebet freebets id body = (Json 200 (Some updated), freebets')
       /\ select_freebet freebets' id = Some updated
       /\ Freebet.amount updated = Num 0.
Proof.
  intros Hamount _ Hexisting Htype Hstatus. split.
  - unfold createFreebet. rewrite Hamount.
    change (truthy (Num 0)) with false. cbn [negb].
    now rewrite !orb_true_r.
  - unfold updateFreebet. rewrite Hexisting.
    rewrite (valid_or_absent _ _ Htype), (valid_or_absent _ _ Hstatus).
    cbv zeta. unfold select_freebet.
    rewrite (find_map_update Freebet.id (update_freebet_row body) id
               freebets existing (fun y => eq_refl) Hexisting).
    do 2 eexists. split; [reflexivity|]. split.
    { apply (find_map_update Freebet.id (update_freebet_row body) id
               freebets existing (fun y => eq_refl) Hexisting). }
    unfold update_freebet_row. cbn [Freebet.amount]. now rewrite Hamount.
Qed.

Lemma freebet_amount_zero_witness :
  fst (createFreebet sample_db [sample_freebet] zero_amount_request)
  = Message 400 "Los campos idBookMaker, type, amount, date, event y status son obligatorios"
  /\ option_map Freebet.amount
       (select_freebet
          (snd (updateFreebet [sample_freebet] 1 zero_amount_request)) 1)
     = Some (Num 0).
Proof.
  destruct (freebet_amount_zero sample_db [sample_freebet] 1
              zero_amount_request sample_freebet)
    as (Hcreate & updated & freebets' & Hupdate & Hread & Hzero);
    try reflexivity; try discriminate.
  split; [now rewrite Hcreate|].
  rewrite Hupdate. cbn [snd]. rewrite Hread. cbn [option_map].
  now rewrite Hzero.
Defined.

(** ** The reports *)

(** X17: the two ratios guarded by [|| 0] are never NaN: whatever row the
    query returns, [winRate] and [roi] of [getBetStats] and of
    [getBookMakerPerformance] are numbers, 0 standing in for 0/0. *)
Theorem guarded_ratios_never_NaN
    (stat : BetStat.t) (performance : Performance.t) :
  is_nan (EnhancedStat.winRate (enhance_stat stat)) = false
  /\ is_nan (EnhancedStat.roi (enhance_stat stat)) = false
  /\ is_nan (EnrichedPerformance.winRate (enrich_performance performance))
     = false
  /\ is_nan (EnrichedPerformance.roi (enrich_performance performance))
     = false.
Proof.
  unfold enhance_stat, enrich_performance.
  cbn [EnhancedStat.winRate EnhancedStat.roi EnrichedPerformance.winRate
       EnrichedPerformance.roi].
  repeat split; apply guarded_ratio_not_nan.
Qed.

(** X18: the performance of a bookmaker without bets (in the window, when
    one is given) is a report of zeros: every count, total, average and
    ratio is 0 and the two extremes of the odds are [null]. *)
Theorem getBookMakerPerformance_without_bets
    (db : database) (id : Z) (startDate endDate : option date)
    (bookMaker : BookMaker.t) :
  select_bookMaker db id = Some bookMaker ->
  performance_bets db id startDate endDate = [] ->
  getBookMakerPerformance db id startDate endDate
  = Json 200
      {| PerformanceReport.bookMakerName := BookMaker.name bookMaker;
         PerformanceReport.startDate := startDate;
         PerformanceReport.endDate := endDate;
         PerformanceReport.performance :=
           {| EnrichedPerformance.totalBets := 0;
              EnrichedPerformance.wonBets := 0;
              EnrichedPerformance.lostBets := 0;
              EnrichedPerformance.totalStaked := 0;
              EnrichedPerformance.totalProfit := 0;
              EnrichedPerformance.avgStake := 0;
              EnrichedPerformance.avgOdds := 0;
              EnrichedPerformance.minOdds := Null;
              EnrichedPerformance.maxOdds := Null;
              EnrichedPerformance.betTypesUsed := 0;
              EnrichedPerformance.winRate := 0;
              EnrichedPerformance.roi := 0 |} |}.
Proof.
  intros Hbm Hbets. unfold getBookMakerPerformance.
  rewrite Hbm, Hbets. reflexivity.
Qed.

Lemma getBookMakerPerformance_without_bets_witness :
  option_map PerformanceReport.performance
    (match getBookMakerPerformance sample_db 1 (Some 20%Z) (Some 30%Z) with
     | Json _ report => Some report
     | _ => None
     end)
  = option_map PerformanceReport.performance
      (match getBookMakerPerformance idle_db 3 None None with
       | Json _ report => Some report
       | _ => None
       end).
Proof.
  rewrite (getBookMakerPerformance_without_bets sample_db 1 (Some 20%Z)
             (Some 30%Z) exchange eq_refl eq_refl).
  rewrite (getBookMakerPerformance_without_bets idle_db 3 None None
             idle_bookmaker eq_refl eq_refl).
  reflexivity.
Defined.

(** X19: the window of [getBookMakerPerformance] needs both of its ends:
    with a start date alone, or an end date alone, the report echoes the
    date but its figures are those of all time. *)
Theorem getBookMakerPerformance_one_sided_window
    (db : database) (id : Z) (day : date) (report : PerformanceReport.t) :
  getBookMakerPerformance db id None None = Json 200 report ->
  getBookMakerPerformance db id (Some day) None
  = Json 200
      {| PerformanceReport.bookMakerName :=
           PerformanceReport.bookMakerName report;
         PerformanceReport.startDate := Some day;
         PerformanceReport.endDate := None;
         PerformanceReport.performance :=
           PerformanceReport.performance report |}
  /\ getBookMakerPerformance db id None (Some day)
     = Json 200
         {| PerformanceReport.bookMakerName :=
              PerformanceReport.bookMakerName report;
            PerformanceReport.startDate := None;
            PerformanceReport.endDate := Some day;
            PerformanceReport.performance :=
              PerformanceReport.performance report |}.
Proof.
  unfold getBookMakerPerformance.
  destruct (select_bookMaker db id) as [bookMaker|]; [|discriminate].
  intros H.
  assert (E : report
              = {| PerformanceReport.bookMakerName := BookMaker.name bookMaker;
                   PerformanceReport.startDate := None;
                   PerformanceReport.endDate := None;
                   PerformanceReport.performance :=
                     enrich_performance
                       (performance_query
                          (performance_bets db id None None)) |}).
  { symmetry.
    exact (f_equal (fun r => match r with
                             | Json _ body => body
                             | _ => report
                             end) H). }
  rewrite E. split; reflexivity.
Qed.

Lemma getBookMakerPerformance_one_sided_window_witness :
  option_map
    (fun report =>
       EnrichedPerformance.totalBets (PerformanceReport.performance report))
    (match getBookMakerPerformance sample_db 1 (Some 1000%Z) None with
     | Json _ report => Some report
     | _ => None
     end)
  = Some 1.
Proof.
  destruct (getBookMakerPerformance_one_sided_window sample_db 1 1000
              (created (getBookMakerPerformance sample_db 1 None None)
                 {| PerformanceReport.bookMakerName := "";
                    PerformanceReport.startDate := None;
                    PerformanceReport.endDate := None;
                    PerformanceReport.performance :=
                      enrich_performance (performance_query []) |}))
    as (Hstart & _).
  - reflexivity.
  - exact (f_equal
             (fun r =>
                option_map
                  (fun report =>
                     EnrichedPerformance.totalBets
                       (PerformanceReport.performance report))
                  (match r with
                   | Json _ report => Some report
                   | _ => None
                   end)) Hstart).
Defined.

(** *** [getBookMakerBalance] *)

Lemma balance_of_idle (db : database) (id : Z) (bookMaker : BookMaker.t) :
  select_bookMaker db id = Some bookMaker ->
  transactions_of db id = [] ->
  bets_of db id = [] ->
  getBookMakerBalance db id
  = Json 200
      {| BalanceReport.bookMakerName := BookMaker.name bookMaker;
         BalanceReport.balance := round2 (BookMaker.initialBalance bookMaker);
         BalanceReport.breakdown :=
           {| Breakdown.initialBalance :=
                round2 (BookMaker.initialBalance bookMaker);
              Breakdown.totalDeposits := 0;
              Breakdown.totalWithdrawals := 0;
              Breakdown.totalResults := 0;
              Breakdown.totalLiability := 0 |} |}.
Proof.
  intros Hbm Ht Hb. unfold getBookMakerBalance. rewrite Hbm, Ht, Hb.
  cbn [map sql_sum or_else]. rewrite round2_zero, !sub_zero_r.
  do 2 f_equal. apply round2_same.
  eapply same_amount_trans; apply add_zero_r.
Qed.

(** X20: a bookmaker with neither transactions nor bets has its initial
    balance, rounded to 2 decimals, as balance, and a breakdown of zeros. *)
Theorem getBookMakerBalance_without_rows
    (db : database) (id : Z) (bookMaker : BookMaker.t) :
  select_bookMaker db id = Some bookMaker ->
  transactions_of db id = [] ->
  bets_of db id = [] ->
  getBookMakerBalance db id
  = Json 200
      {| BalanceReport.bookMakerName := BookMaker.name bookMaker;
         BalanceReport.balance := round2 (BookMaker.initialBalance bookMaker);
         BalanceReport.breakdown :=
           {| Breakdown.initialBalance :=
                round2 (BookMaker.initialBalance bookMaker);
              Breakdown.totalDeposits := 0;
              Breakdown.totalWithdrawals := 0;
              Breakdown.totalResults := 0;
              Breakdown.totalLiability := 0 |} |}.
Proof. exact (balance_of_idle db id bookMaker). Qed.

Lemma getBookMakerBalance_without_rows_witness :
  option_map BalanceReport.balance
    (match getBookMakerBalance idle_db 3 with
     | Json _ report => Some report
     | _ => None
     end) = Some 25.
Proof.
  rewrite (getBookMakerBalance_without_rows idle_db 3 idle_bookmaker
             eq_refl eq_refl eq_refl).
  reflexivity.
Defined.

Lemma select_bookMaker_created (db : database) (row : BookMaker.t) :
  BookMaker.id row = next_bookMaker_id db ->
  select_bookMaker (insert_bookMaker row db) (BookMaker.id row) = Some row.
Proof.
  intros Hid. unfold select_bookMaker, insert_bookMaker. cbn [bookMakers].
  rewrite find_app_none.
  - simpl. now rewrite Z.eqb_refl.
  - intros bm Hbm. apply Z.eqb_neq.
    pose proof (next_bookMaker_id_fresh db bm Hbm). lia.
Qed.

Lemma select_bookMaker_known (db : database) (id : Z) :
  select_bookMaker db id <> None -> (id < next_bookMaker_id db)%Z.
Proof.
  intros H. destruct (select_bookMaker db id) as [bm|] eqn:E; [|now elim H].
  apply find_some in E as [Hin Hid]. apply Z.eqb_eq in Hid. subst id.
  now apply next_bookMaker_id_fresh.
Qed.

(** X21: a bookmaker just created starts at its initial balance: when every
    bet and transaction names an existing bookmaker, the balance report of
    the bookmaker [createBookMaker] has stored is its initial balance
    rounded to 2 decimals, with a breakdown of zeros. *)
Theorem createBookMaker_then_balance
    (db db' : database) (body : BookMakerBody.t) (row : BookMaker.t) :
  createBookMaker db body = (Json 201 row, db') ->
  references_kept db [] ->
  getBookMakerBalance db' (BookMaker.id row)
  = Json 200
      {| BalanceReport.bookMakerName := BookMaker.name row;
         BalanceReport.balance := round2 (BookMaker.initialBalance row);
         BalanceReport.breakdown :=
           {| Breakdown.initialBalance := round2 (BookMaker.initialBalance row);
              Breakdown.totalDeposits := 0;
              Breakdown.totalWithdrawals := 0;
              Breakdown.totalResults := 0;
              Breakdown.totalLiability := 0 |} |}.
Proof.
  intros H (Hbets & Htransactions & _).
  destruct (createBookMaker_cases db body)
    as [(row' & E & Hid & _) | (code & message & E & _)];
    rewrite E in H; [|discriminate H].
  assert (Hrow : row' = row).
  { exact (f_equal (fun p => created (fst p) row') H). }
  assert (Hdb : insert_bookMaker row' db = db') by exact (f_equal snd H).
  subst row' db'.
  apply balance_of_idle.
  - now apply select_bookMaker_created.
  - apply filter_none. intros t Ht. apply Z.eqb_neq.
    pose proof (select_bookMaker_known db _ (Htransactions t Ht)). lia.
  - apply filter_none. intros b Hb. apply Z.eqb_neq.
    pose proof (select_bookMaker_known db _ (Hbets b Hb)). lia.
Qed.

Lemma sample_db_references_kept : references_kept sample_db [].
Proof.
  repeat split; intros x Hx; simpl in Hx;
    repeat (destruct Hx as [<-|Hx]; [discriminate|]); destruct Hx.
Qed.

Lemma createBookMaker_then_balance_witness :
  option_map BalanceReport.balance
    (match getBookMakerBalance
             (snd (createBookMaker sample_db new_bookmaker_request)) 3 with
     | Json _ report => Some report
     | _ => None
     end) = Some 25.
Proof.
  exact (f_equal
           (fun r =>
              option_map BalanceReport.balance
                (match r with
                 | Json _ report => Some report
                 | _ => None
                 end))
           (createBookMaker_then_balance sample_db
              (snd (createBookMaker sample_db new_bookmaker_request))
              new_bookmaker_request
              (created (fst (createBookMaker sample_db new_bookmaker_request))
                       exchange)
              eq_refl sample_db_references_kept)).
Defined.

Lemma getBookMakerBalance_ext (db db' : database) (id : Z) :
  bookMakers db' = bookMakers db ->
  transactions_of db' id = transactions_of db id ->
  bets_of db' id = bets_of db id ->
  getBookMakerBalance db' id = getBookMakerBalance db id.
Proof.
  intros Hbm Ht Hb. unfold getBookMakerBalance, select_bookMaker.
  now rewrite Hbm, Ht, Hb.
Qed.

Lemma filter_app_miss {A : Type} (p : A -> bool) (l : list A) (x : A) :
  p x = false -> filter p (l ++ [x]) = filter p l.
Proof.
  intros Hx. rewrite filter_app. simpl. rewrite Hx. apply app_nil_r.
Qed.

(** X22: balances are kept apart: a bet or a transaction created for one
    bookmaker leaves the balance report of every other bookmaker exactly as
    it was. *)
Theorem getBookMakerBalance_isolated (db : database) (id : Z) :
  (forall body row db',
     createBet db body = (Json 201 row, db') ->
     Bet.idBookMaker row <> id ->
     getBookMakerBalance db' id = getBookMakerBalance db id)
  /\ (forall body row db',
        createTransaction db body = (Json 201 row, db') ->
        Transaction.idBookMaker row <> id ->
        getBookMakerBalance db' id = getBookMakerBalance db id).
Proof.
  split; intros body row db' H Hother.
  - destruct (createBet_created _ _ _ _ H) as (-> & _).
    apply getBookMakerBalance_ext; try reflexivity.
    unfold bets_of, insert_bet. cbn [bets].
    apply filter_app_miss. now apply Z.eqb_neq.
  - destruct (createTransaction_cases db body)
      as [(row' & E & _) | (code & message & E & _)];
      rewrite E in H; [|discriminate H].
    assert (Hrow : row' = row).
    { exact (f_equal (fun p => created (fst p) row') H). }
    assert (Hdb : insert_transaction row' db = db') by exact (f_equal snd H).
    subst row' db'.
    apply getBookMakerBalance_ext; try reflexivity.
    unfold transactions_of, insert_transaction. cbn [transactions].
    apply filter_app_miss. now apply Z.eqb_neq.
Qed.

Lemma getBookMakerBalance_isolated_witness :
  getBookMakerBalance (snd (createBet sample_db pending_lay_request)) 1
  = getBookMakerBalance sample_db 1
  /\ getBookMakerBalance (snd (createTransaction sample_db deposit_request)) 1
     = getBookMakerBalance sample_db 1
  /\ getBookMakerBalance (snd (createTransaction sample_db deposit_request)) 2
     <> getBookMakerBalance sample_db 2.
Proof.
  destruct (getBookMakerBalance_isolated sample_db 1) as (Hbet & Htransaction).
  split; [|split].
  - apply (Hbet pending_lay_request
             (created (fst (createBet sample_db pending_lay_request))
                      won_back_bet));
      [reflexivity | discriminate].
  - apply (Htransaction deposit_request
             (created (fst (createTransaction sample_db deposit_request))
                      {| Transaction.id := 0; Transaction.date := 0;
                         Transaction.idBookMaker := 0;
                         Transaction.type := "";
                         Transaction.amount := 0;
                         Transaction.info := None |}));
      [reflexivity | discriminate].
  - intros H.
    apply (f_equal (fun r => match r with
                             | Json _ report =>
                                 Prim2SF (BalanceReport.balance report)
                             | _ => S754_nan
                             end)) in H.
    vm_compute in H. discriminate H.
Defined.
